(** * The riset / sunproject command-line front ends

    A shallow embedding of [src/riset/cli.py] and [src/sunproject/cli.py]:
    resource discovery ([_find_dir]), the key=value config store, the
    day/night/auto dispatcher, the post-install bootstrap, launch-agent
    cleanup and wallpaper image replacement, followed by the properties
    proved about them.

    Conventions of the embedding

    - Text is a [string] of 8-bit characters; the Python [str] methods used
      by the program ([strip], [lower], [upper], [splitlines], [split],
      [startswith], [in]) are interpreted on the ASCII range, where they
      coincide with Python's.  Characters above 127 are carried unchanged.
    - A [pathlib] path is its list of components plus an absolute flag
      (what [PurePosixPath] keeps after parsing).
    - The file system is a finite map from path text to a node; external
      processes are an oracle of the host that answers with a
      [CompletedProcess] (or an [OSError]) and a new file system.
    - Handlers run in a state-and-exception monad over the file system and
      an event log (processes spawned with their results, lines printed). *)

From Stdlib Require Import ZArith String Ascii List Bool Lia.
From stdpp Require Import gmap strings list pretty.

Local Open Scope Z_scope.

(* ================================================================== *)
(** * Python [str] on ASCII text *)

Module Str.

Definition code (c : ascii) : N := N_of_ascii c.

(** [str.isspace] on one ASCII character: TAB, LF, VT, FF, CR,
    FS, GS, RS, US and SPACE. *)
Definition is_space (c : ascii) : bool :=
  ((9 <=? code c) && (code c <=? 13) || (28 <=? code c) && (code c <=? 32))%N.

(** The line boundaries [str.splitlines] recognises in ASCII text:
    LF, VT, FF, CR, FS, GS, RS. *)
Definition is_linebreak (c : ascii) : bool :=
  ((10 <=? code c) && (code c <=? 13) || (28 <=? code c) && (code c <=? 30))%N.

Definition lower_char (c : ascii) : ascii :=
  if ((65 <=? code c) && (code c <=? 90))%N then ascii_of_N (code c + 32) else c.

Definition upper_char (c : ascii) : ascii :=
  if ((97 <=? code c) && (code c <=? 122))%N then ascii_of_N (code c - 32) else c.

Fixpoint map_chars (f : ascii -> ascii) (s : string) : string :=
  match s with
  | EmptyString => EmptyString
  | String c r => String (f c) (map_chars f r)
  end.

Definition lower : string -> string := map_chars lower_char.
Definition upper : string -> string := map_chars upper_char.

(** Truthiness of a [str]: non-empty. *)
Definition truthy (s : string) : bool :=
  match s with EmptyString => false | String _ _ => true end.

(** [a or b] on strings. *)
Definition or_else (a b : string) : string := if truthy a then a else b.

Fixpoint lstrip (s : string) : string :=
  match s with
  | EmptyString => EmptyString
  | String c r => if is_space c then lstrip r else s
  end.

Fixpoint rstrip (s : string) : string :=
  match s with
  | EmptyString => EmptyString
  | String c r =>
      let r' := rstrip r in
      if is_space c && negb (truthy r') then EmptyString else String c r'
  end.

Definition strip (s : string) : string := lstrip (rstrip s).

Definition startswith (p s : string) : bool := String.prefix p s.

(** [needle in hay]. *)
Fixpoint contains (needle hay : string) : bool :=
  String.prefix needle hay ||
  match hay with
  | EmptyString => false
  | String _ r => contains needle r
  end.

(** [s.split(sep, 1)] for a one-character separator: one element when
    the separator does not occur, two otherwise. *)
Fixpoint split1 (sep : ascii) (s : string) : list string :=
  match s with
  | EmptyString => [EmptyString]
  | String c r =>
      if Ascii.eqb c sep then [EmptyString; r]
      else match split1 sep r with
           | k :: rest => String c k :: rest
           | [] => [String c EmptyString]
           end
  end.

(** [s.split(sep)] for a one-character separator. *)
Fixpoint split (sep : ascii) (s : string) : list string :=
  match s with
  | EmptyString => [EmptyString]
  | String c r =>
      if Ascii.eqb c sep then EmptyString :: split sep r
      else match split sep r with
           | k :: rest => String c k :: rest
           | [] => [String c EmptyString]
           end
  end.

(** [sep.join(parts)]. *)
Definition join (sep : string) (l : list string) : string := String.concat sep l.

(** [str.splitlines]: [cur] is the line being read, [after_cr] tells
    that the previous character was a CR, so that CR LF counts once. *)
Fixpoint splitlines_go (after_cr : bool) (cur : string) (s : string) : list string :=
  match s with
  | EmptyString => if truthy cur then [cur] else []
  | String c r =>
      if Ascii.eqb c "010" then
        if after_cr then splitlines_go false cur r
        else cur :: splitlines_go false EmptyString r
      else if Ascii.eqb c "013" then cur :: splitlines_go true EmptyString r
      else if is_linebreak c then cur :: splitlines_go false EmptyString r
      else splitlines_go false (cur +:+ String c EmptyString) r
  end.

Definition splitlines (s : string) : list string :=
  splitlines_go false EmptyString s.

End Str.

(* ================================================================== *)
(** * [pathlib] paths *)

(** A parsed POSIX path: whether it is anchored at the root, and its
    components.  Parsing drops empty components and ["."], as
    [PurePosixPath] does, and keeps [".."]. *)
Record Path : Type := mkPath { is_absolute : bool; parts : list string }.

Definition keep_part (c : string) : bool :=
  negb (String.eqb c EmptyString) && negb (String.eqb c ".").

(** [Path(s)]. *)
Definition Path_of (s : string) : Path :=
  {| is_absolute := Str.startswith "/" s;
     parts := List.filter keep_part (Str.split "/" s) |}.

(** [p / s]: an absolute right operand replaces the left one. *)
Definition joinpath (p : Path) (s : string) : Path :=
  let q := Path_of s in
  if is_absolute q then q
  else {| is_absolute := is_absolute p; parts := parts p ++ parts q |}.

Infix "//" := joinpath (at level 40, left associativity).

(** [str(p)]. *)
Definition str (p : Path) : string :=
  if is_absolute p then "/" +:+ Str.join "/" (parts p)
  else match parts p with
       | [] => "."
       | _ => Str.join "/" (parts p)
       end.

(** [p.parent]. *)
Definition parent (p : Path) : Path :=
  {| is_absolute := is_absolute p; parts := removelast (parts p) |}.

(** [p.name]: the last component, empty for the root and for ["."]. *)
Definition name_of (p : Path) : string := List.last (parts p) EmptyString.

(* ================================================================== *)
(** * Results, the file system and the host *)

(** What escapes a handler: [SystemExit(code)], or any other exception,
    kept as the text [str(e)] that [main] prints. *)
Inductive exn : Type :=
| SystemExit (code : Z)
| Exception (msg : string).

Inductive result (A : Type) : Type :=
| Ok (a : A)
| Raise (e : exn).
Arguments Ok {A} a.
Arguments Raise {A} e.

Inductive node : Type :=
| File (text : string)
| Dir.

(** The file system: path text to node.  Links and permissions are not
    represented. *)
Abbreviation fsmap := (gmap string node).
Abbreviation env := (gmap string string).

(** [subprocess.CompletedProcess] with captured text output. *)
Record CompletedProcess : Type :=
  { returncode : Z; stdout : string; stderr : string }.

(** What the program reads from its process and the machine it runs on. *)
Record host : Type :=
  { environ : env;                       (* os.environ *)
    home : Path;                         (* Path.home() *)
    pw_dir : string -> option string;    (* home of a named user, for ~user *)
    repo_root : Path;                    (* Path(__file__).resolve().parents[2] *)
    executable : string;                 (* sys.executable *)
    uid : Z;                             (* os.getuid() *)
    (** [subprocess.run(cmd, text=True, capture_output=True[, env=e])]:
        the child may change the file system; starting it may fail with
        an [OSError]. *)
    spawn : list string -> option env -> fsmap -> result CompletedProcess * fsmap }.

(** [os.environ.get(k)]. *)
Definition getenv (h : host) (k : string) : option string := environ h !! k.

(** [p.expanduser()]: a leading ["~"] component becomes the home
    directory, ["~user"] the home of that user; an unknown user is a
    [RuntimeError]. *)
Definition expanduser (h : host) (p : Path) : result Path :=
  if is_absolute p then Ok p
  else match parts p with
       | String "~" user :: rest =>
           match user with
           | EmptyString =>
               Ok {| is_absolute := is_absolute (home h); parts := parts (home h) ++ rest |}
           | _ =>
               match pw_dir h user with
               | Some d => Ok {| is_absolute := is_absolute (Path_of d);
                                 parts := parts (Path_of d) ++ rest |}
               | None => Raise (Exception "Could not determine home directory.")
               end
           end
       | _ => Ok p
       end.

(** What a path names: the root and the current directory are always
    directories; anything else is looked up by its text. *)
Definition stat (fs : fsmap) (p : Path) : option node :=
  match parts p with
  | [] => Some Dir
  | _ => fs !! str p
  end.

Definition exists_ (fs : fsmap) (p : Path) : bool :=
  match stat fs p with Some _ => true | None => false end.

Definition is_file (fs : fsmap) (p : Path) : bool :=
  match stat fs p with Some (File _) => true | _ => false end.

Definition is_dir (fs : fsmap) (p : Path) : bool :=
  match stat fs p with Some Dir => true | _ => false end.

Definition errno_msg (what : string) (p : Path) : string :=
  what +:+ ": '" +:+ str p +:+ "'".

(** The ancestors of [p] from the outermost down to [p] itself. *)
Definition lineage (p : Path) : list Path :=
  List.map (fun n => {| is_absolute := is_absolute p; parts := firstn n (parts p) |})
           (seq 1 (length (parts p))).

Definition mkdir_step (acc : result fsmap) (d : Path) : result fsmap :=
  match acc with
  | Raise e => Raise e
  | Ok fs =>
      match stat fs d with
      | None => Ok (<[str d := Dir]> fs)
      | Some Dir => Ok fs
      | Some (File _) => Raise (Exception (errno_msg "[Errno 17] File exists" d))
      end
  end.

(** [p.mkdir(parents=True, exist_ok=True)]. *)
Definition mkdir_parents (fs : fsmap) (p : Path) : result fsmap :=
  List.fold_left mkdir_step (lineage p) (Ok fs).

(** [p.read_text(encoding="utf-8")].  A node holds the decoded text as
    written; reading translates CR and CR LF to LF, which [splitlines],
    the only reader of config text, treats alike. *)
Definition read_text (fs : fsmap) (p : Path) : result string :=
  match stat fs p with
  | Some (File t) => Ok t
  | Some Dir => Raise (Exception (errno_msg "[Errno 21] Is a directory" p))
  | None => Raise (Exception (errno_msg "[Errno 2] No such file or directory" p))
  end.

(** [p.write_text(t, encoding="utf-8")]: the containing directory must
    exist. *)
Definition write_text (fs : fsmap) (p : Path) (t : string) : result fsmap :=
  match stat fs p with
  | Some Dir => Raise (Exception (errno_msg "[Errno 21] Is a directory" p))
  | _ =>
      if is_dir fs (parent p) then Ok (<[str p := File t]> fs)
      else Raise (Exception (errno_msg "[Errno 2] No such file or directory" p))
  end.

(** The three ways [p.unlink()] ends in [cmd_cleanup]. *)
Inductive unlink_outcome : Type :=
| Unlinked (fs' : fsmap)
| UnlinkFileNotFound
| UnlinkOSError (msg : string).

Definition unlink (fs : fsmap) (p : Path) : unlink_outcome :=
  match stat fs p with
  | None => UnlinkFileNotFound
  | Some (File _) => Unlinked (delete (str p) fs)
  | Some Dir => UnlinkOSError (errno_msg "[Errno 1] Operation not permitted" p)
  end.

(** [shutil.copy2(src, dst)]: a directory [dst] receives the file under
    the source's name; the text of an [OSError] on the right. *)
Definition copy2 (fs : fsmap) (src dst : Path) : fsmap + string :=
  let dst := if is_dir fs dst then dst // name_of src else dst in
  match stat fs src with
  | Some (File t) =>
      if String.eqb (str src) (str dst)
      then inr ("'" +:+ str src +:+ "' and '" +:+ str dst +:+ "' are the same file")
      else match stat fs dst with
           | Some Dir => inr (errno_msg "[Errno 21] Is a directory" dst)
           | _ =>
               if is_dir fs (parent dst) then inl (<[str dst := File t]> fs)
               else inr (errno_msg "[Errno 2] No such file or directory" dst)
           end
  | Some Dir => inr (errno_msg "[Errno 21] Is a directory" src)
  | None => inr (errno_msg "[Errno 2] No such file or directory" src)
  end.

(* ================================================================== *)
(** * The handler monad *)

(** What a run leaves behind, in order. *)
Inductive event : Type :=
| EvSpawn (cmd : list string) (e : option env) (r : result CompletedProcess)
| EvStdout (line : string)
| EvStderr (line : string)
| EvPrintHelp.

Record state : Type := mkState { st_fs : fsmap; st_log : list event }.

Definition M (A : Type) : Type := state -> result A * state.

Definition ret {A} (a : A) : M A := fun s => (Ok a, s).

Definition bind {A B} (m : M A) (k : A -> M B) : M B :=
  fun s => match m s with
           | (Ok a, s') => k a s'
           | (Raise e, s') => (Raise e, s')
           end.

Definition raise {A} (e : exn) : M A := fun s => (Raise e, s).

Declare Scope py_scope.
Delimit Scope py_scope with py.
Notation "x <- m ;; k" := (bind m (fun x => k))
  (at level 100, m at next level, right associativity) : py_scope.
Notation "m ;; k" := (bind m (fun _ => k))
  (at level 100, right associativity) : py_scope.
Local Open Scope py_scope.

Definition log (ev : event) : M unit :=
  fun s => (Ok tt, {| st_fs := st_fs s; st_log := st_log s ++ [ev] |}).

Definition print (line : string) : M unit := log (EvStdout line).
Definition eprint (line : string) : M unit := log (EvStderr line).

(** Read the file system. *)
Definition with_fs {A} (f : fsmap -> A) : M A := fun s => (Ok (f (st_fs s)), s).

(** Lift a fallible pure computation. *)
Definition lift {A} (r : result A) : M A := fun s => (r, s).

Definition set_fs (fs : fsmap) : M unit :=
  fun s => (Ok tt, {| st_fs := fs; st_log := st_log s |}).

(** [subprocess.run]: ask the host, record the call with its answer. *)
Definition subprocess_run (h : host) (cmd : list string) (e : option env)
  : M CompletedProcess :=
  fun s =>
    let '(r, fs') := spawn h cmd e (st_fs s) in
    (r, {| st_fs := fs'; st_log := st_log s ++ [EvSpawn cmd e r] |}).

(* ================================================================== *)
(** * Python [dict] with string keys, in insertion order *)

Module Dict.

Definition t : Type := list (string * string).

(** [k in d] and [d[k]] together. *)
Fixpoint get (k : string) (d : t) : option string :=
  match d with
  | [] => None
  | (k', v) :: r => if String.eqb k k' then Some v else get k r
  end.

(** [d[k] = v]: an existing key keeps its place. *)
Fixpoint set (k v : string) (d : t) : t :=
  match d with
  | [] => [(k, v)]
  | (k', v') :: r => if String.eqb k k' then (k, v) :: r else (k', v') :: set k v r
  end.

Definition keys (d : t) : list string := List.map fst d.

End Dict.

(** [d.setdefault(k, v)] on the environment mapping. *)
Definition setdefault (k v : string) (e : env) : env :=
  match e !! k with
  | Some _ => e
  | None => <[k := v]> e
  end.

(* ================================================================== *)
(** * The programs *)

(** The two command-line programs of the repository share their
    helpers; [program] selects the constants and the handlers each one has. *)
Inductive program : Type := Riset | Sunproject.

Definition APP_NAME (a : program) : string :=
  match a with Riset => "riset" | Sunproject => "sunproject" end.

(** The prefix spelled out in the environment variable names. *)
Definition ENV_PREFIX (a : program) : string :=
  match a with Riset => "RISET" | Sunproject => "SUNPROJECT" end.

Definition LF : string := String "010" EmptyString.

Definition CONFIG_PATH (h : host) (a : program) : Path :=
  home h // ".config" // APP_NAME a // "config.toml".

Definition DAY_ASSET : string := "morning.jpg".
Definition NIGHT_ASSET : string := "evening.jpg".

(** ** Paths and discovery helpers *)

Definition _homebrew_share_candidates (h : host) (a : program) : list Path :=
  let cands : list Path := [] in
  let cands :=
    match getenv h "HOMEBREW_PREFIX" with
    | Some hb_prefix =>
        if Str.truthy hb_prefix
        then cands ++ [Path_of hb_prefix // "share" // APP_NAME a]
        else cands
    | None => cands
    end in
  cands ++ [ Path_of "/opt/homebrew/share" // APP_NAME a;
             Path_of "/usr/local/share" // APP_NAME a ].

Definition _repo_root_from_this_file (h : host) : Path := repo_root h.

(** The name of the override variable, [f"RISET_{name.upper()}_DIR"]. *)
Definition env_key (a : program) (name : string) : string :=
  ENV_PREFIX a +:+ "_" +:+ Str.upper name +:+ "_DIR".

(** Step 3 of [_find_dir]: the loop over the share locations. *)
Fixpoint _find_dir_share (fs : fsmap) (name : string) (bases : list Path) : option Path :=
  match bases with
  | [] => None
  | base :: rest =>
      let p := base // name in
      if exists_ fs p then Some p else _find_dir_share fs name rest
  end.

(** Steps 2 and 3 of [_find_dir]. *)
Definition _find_dir_installed (h : host) (a : program) (fs : fsmap) (name : string)
  : option Path :=
  let repo := _repo_root_from_this_file h in
  let p := repo // name in
  if exists_ fs p then Some p
  else _find_dir_share fs name (_homebrew_share_candidates h a).

Definition _find_dir (h : host) (a : program) (fs : fsmap) (name : string)
  : result (option Path) :=
  match getenv h (env_key a name) with
  | Some env_val =>
      if Str.truthy env_val then
        match expanduser h (Path_of env_val) with
        | Raise e => Raise e
        | Ok p =>
            if exists_ fs p then Ok (Some p)
            else Ok (_find_dir_installed h a fs name)
        end
      else Ok (_find_dir_installed h a fs name)
  | None => Ok (_find_dir_installed h a fs name)
  end.

Definition find_dir (h : host) (a : program) (name : string) : M (option Path) :=
  fun s => (_find_dir h a (st_fs s) name, s).

Definition scripts_dir_missing (a : program) : string :=
  "Could not find 'scripts' directory. Set ENV '" +:+ ENV_PREFIX a +:+
  "_SCRIPTS_DIR' or install scripts via Homebrew pkgshare.".

Definition _scripts_dir (h : host) (a : program) : M Path :=
  p <- find_dir h a "scripts" ;;
  match p with
  | None => raise (Exception (scripts_dir_missing a))
  | Some p => ret p
  end.

Definition _assets_dir (h : host) (a : program) : M (option Path) :=
  find_dir h a "assets".

Definition _launch_agent_paths (h : host) : list Path :=
  let base := home h // "Library" // "LaunchAgents" in
  [ base // "com.riset.sunrise.plist"; base // "com.riset.sunset.plist" ].

(** ** Simple config (key=value lines) *)

Definition _ensure_config_dir (h : host) (a : program) : M unit :=
  fs <- with_fs id ;;
  fs' <- lift (mkdir_parents fs (parent (CONFIG_PATH h a))) ;;
  set_fs fs'.

(** The body of the loop of [_read_config] on one line. *)
Definition _read_config_line (data : result Dict.t) (line : string) : result Dict.t :=
  match data with
  | Raise e => Raise e
  | Ok data =>
      let line := Str.strip line in
      if negb (Str.truthy line) || Str.startswith "#" line || negb (Str.contains "=" line)
      then Ok data
      else match Str.split1 "=" line with
           | [k; v] => Ok (Dict.set (Str.strip k) (Str.strip v) data)
           | _ => Raise (Exception "not enough values to unpack (expected 2, got 1)")
           end
  end.

(** [_read_config] once the text is read. *)
Definition parse_config (text : string) : result Dict.t :=
  List.fold_left _read_config_line (Str.splitlines text) (Ok []).

Definition _read_config (h : host) (a : program) : M Dict.t :=
  present <- with_fs (fun fs => exists_ fs (CONFIG_PATH h a)) ;;
  if negb present then ret []
  else
    fs <- with_fs id ;;
    text <- lift (read_text fs (CONFIG_PATH h a)) ;;
    lift (parse_config text).

Definition config_header (a : program) : string :=
  match a with Riset => "# riset config" | Sunproject => "# sunproject config" end.

(** The text [_write_config] writes. *)
Definition render_config (a : program) (cfg : Dict.t) : string :=
  let lines := config_header a :: List.map (fun kv => fst kv +:+ "=" +:+ snd kv) cfg in
  Str.join LF lines +:+ LF.

Definition _write_config (h : host) (a : program) (cfg : Dict.t) : M unit :=
  _ensure_config_dir h a ;;
  fs <- with_fs id ;;
  fs' <- lift (write_text fs (CONFIG_PATH h a) (render_config a cfg)) ;;
  set_fs fs'.

(** ** Subprocess helpers *)

Definition _run (h : host) (cmd : list string) : M CompletedProcess :=
  subprocess_run h cmd None.

Definition _run_or_die (h : host) (cmd : list string) : M string :=
  res <- _run h cmd ;;
  if negb (returncode res =? 0) then
    let msg := Str.or_else (Str.strip (stderr res))
                 (Str.or_else (Str.strip (stdout res))
                    ("Command failed: " +:+ Str.join " " cmd)) in
    eprint msg ;;
    raise (SystemExit (if returncode res =? 0 then 1 else returncode res))
  else ret (Str.strip (stdout res)).

(** ** Command handlers *)

(** The parsed command line: the subcommand with its arguments.  The
    coordinates of [location_change] are carried as the text
    [str(args.lat)], [str(args.lon)]. *)
Inductive args : Type :=
| Help
| Location_change (lat lon : string)
| Background_change (mode : string)
| Post_install
| Cleanup
| Morning
| Evening
| Day_image (image : string)
| Night_image (image : string).

Definition cmd_help (a : program) : M Z :=
  match a with
  | Riset => log EvPrintHelp ;; ret 0
  | Sunproject =>
      print ("For usage, run:  sunproject -h   or   sunproject <command> -h") ;; ret 0
  end.

Definition cmd_location_change (h : host) (a : program) (lat lon : string) : M Z :=
  cfg <- _read_config h a ;;
  let cfg := Dict.set "lat" lat cfg in
  let cfg := Dict.set "lon" lon cfg in
  _write_config h a cfg ;;
  print ("✅ Location updated: lat=" +:+ lat +:+ " lon=" +:+ lon) ;;
  print ("🗂  Config file: " +:+ str (CONFIG_PATH h a)) ;;
  ret 0.

(** The script of an explicit mode, if the mode is one. *)
Definition mode_script (sdir : Path) (mode : string) : option Path :=
  if String.eqb mode "day" then Some (sdir // "wallpaper_morning.sh")
  else if String.eqb mode "night" then Some (sdir // "wallpaper_evening.sh")
  else None.

(** The end of [cmd_background_change], from "Explicit day/night" on. *)
Definition apply_mode (h : host) (sdir : Path) (mode : string) : M Z :=
  match mode_script sdir mode with
  | None => eprint "Invalid --mode. Must be one of: day | night | auto" ;; ret 2
  | Some script =>
      present <- with_fs (fun fs => exists_ fs script) ;;
      if negb present then
        eprint ("Expected script not found: " +:+ str script) ;; ret 2
      else
        _run_or_die h [str script] ;;
        print ("🖼️  Wallpaper set: " +:+ mode) ;;
        ret 0
  end.

Definition cmd_background_change (h : host) (a : program) (mode : string) : M Z :=
  sdir <- _scripts_dir h a ;;
  if String.eqb mode "auto" then
    let times_script := sdir // "wallpaper_times.sh" in
    present <- with_fs (fun fs => exists_ fs times_script) ;;
    if present then
      _run_or_die h [str times_script] ;;
      print "🖼️  Wallpaper set automatically (day/night)." ;;
      ret 0
    else
      let compute_script := sdir // "compute_mode.sh" in
      present <- with_fs (fun fs => exists_ fs compute_script) ;;
      if present then
        out <- _run_or_die h [str compute_script] ;;
        let mode := Str.lower (Str.strip out) in
        if negb (String.eqb mode "day" || String.eqb mode "night") then
          eprint ("Invalid mode from compute_mode.sh: " +:+ mode) ;; ret 2
        else apply_mode h sdir mode
      else
        eprint "For --mode auto, expected 'wallpaper_times.sh' or 'compute_mode.sh' not found." ;;
        ret 2
  else apply_mode h sdir mode.

(** [morning], [evening], [day], [night] and [cleanup] are commands of
    [riset] alone. *)
Definition cmd_morning (h : host) : M Z :=
  sdir <- _scripts_dir h Riset ;;
  let script := sdir // "wallpaper_morning.sh" in
  present <- with_fs (fun fs => exists_ fs script) ;;
  if negb present then
    eprint ("Expected script not found: " +:+ str script) ;; ret 2
  else
    _run_or_die h [str script] ;;
    print "🌅 Morning wallpaper applied." ;;
    ret 0.

Definition cmd_evening (h : host) : M Z :=
  sdir <- _scripts_dir h Riset ;;
  let script := sdir // "wallpaper_evening.sh" in
  present <- with_fs (fun fs => exists_ fs script) ;;
  if negb present then
    eprint ("Expected script not found: " +:+ str script) ;; ret 2
  else
    _run_or_die h [str script] ;;
    print "🌇 Evening wallpaper applied." ;;
    ret 0.

Definition assets_dir_missing : string :=
  "Could not find assets directory. Set RISET_ASSETS_DIR or ensure assets are installed.".

Definition _replace_wallpaper_image (h : host)
    (src dest_filename label : string) : M Z :=
  assets_dir <- _assets_dir h Riset ;;
  match assets_dir with
  | None => eprint assets_dir_missing ;; ret 2
  | Some assets_dir =>
      src_path <- lift (expanduser h (Path_of src)) ;;
      present <- with_fs (fun fs => exists_ fs src_path) ;;
      if negb present then
        eprint ("Image not found: " +:+ str src_path) ;; ret 2
      else
        regular <- with_fs (fun fs => is_file fs src_path) ;;
        if negb regular then
          eprint ("Expected a file but got: " +:+ str src_path) ;; ret 2
        else
          let dest_path := assets_dir // dest_filename in
          fs <- with_fs id ;;
          fs' <- lift (mkdir_parents fs (parent dest_path)) ;;
          set_fs fs' ;;
          match copy2 fs' src_path dest_path with
          | inr exc => eprint ("Failed to copy image: " +:+ exc) ;; ret 2
          | inl fs'' =>
              set_fs fs'' ;;
              print ("✅ " +:+ label +:+ " wallpaper updated -> " +:+ str dest_path) ;;
              ret 0
          end
  end.

Definition cmd_day_image (h : host) (image : string) : M Z :=
  _replace_wallpaper_image h image DAY_ASSET "Day".

Definition cmd_night_image (h : host) (image : string) : M Z :=
  _replace_wallpaper_image h image NIGHT_ASSET "Night".

(** The environment [cmd_post_install] hands to the delegate:
    [os.environ.copy()] followed by the [setdefault] calls. *)
Definition post_install_env (h : host) (a : program) (cfg : Dict.t) : env :=
  let e := environ h in
  let e := match a with
           | Riset => setdefault "RISET_PYTHON_BIN" (executable h) e
           | Sunproject => e
           end in
  let e := match Dict.get "lat" cfg with
           | Some lat => setdefault (ENV_PREFIX a +:+ "_LAT") lat e
           | None => e
           end in
  let e := match Dict.get "lon" cfg with
           | Some lon => setdefault (ENV_PREFIX a +:+ "_LON") lon e
           | None => e
           end in
  e.

Definition cmd_post_install (h : host) (a : program) : M Z :=
  sdir <- _scripts_dir h a ;;
  let times_script := sdir // "wallpaper_times.sh" in
  present <- with_fs (fun fs => exists_ fs times_script) ;;
  if negb present then
    eprint ("Expected script not found: " +:+ str times_script) ;; ret 2
  else
    cfg <- _read_config h a ;;
    let e := post_install_env h a cfg in
    res <- subprocess_run h ["bash"; str times_script] (Some e) ;;
    if negb (returncode res =? 0) then
      let err := Str.or_else (Str.strip (stderr res))
                   (Str.or_else (Str.strip (stdout res)) "wallpaper_times.sh failed") in
      eprint err ;;
      ret (returncode res)
    else
      (if Str.truthy (Str.strip (stdout res)) then print (Str.strip (stdout res)) else ret tt) ;;
      (if Str.truthy (Str.strip (stderr res)) then eprint (Str.strip (stderr res)) else ret tt) ;;
      print "✅ wallpaper_times.sh executed (launch agents updated)." ;;
      ret 0.

(** [msg = stderr or stdout] of [cmd_cleanup], both stripped. *)
Definition bootout_message (res : CompletedProcess) : string :=
  let stderr_ := Str.strip (stderr res) in
  let stdout_ := Str.strip (stdout res) in
  Str.or_else stderr_ stdout_.

(** The first half of the loop body of [cmd_cleanup]: what the answer of
    [launchctl bootout] adds to [errors]. *)
Definition bootout_errors (plist : Path) (res : CompletedProcess) : list string :=
  if negb ((returncode res =? 0) || (returncode res =? 36)) then
    let msg := bootout_message res in
    if Str.truthy msg && negb (Str.contains "No such process" msg)
       && negb (Str.contains "No such file or directory" msg)
    then ["launchctl bootout " +:+ name_of plist +:+ ": " +:+ msg]
    else []
  else [].

Definition bootout_cmd (h : host) (plist : Path) : list string :=
  ["launchctl"; "bootout"; "gui/" +:+ pretty (uid h); str plist].

(** One turn of the loop of [cmd_cleanup]. *)
Definition cleanup_plist (h : host) (errors : list string) (plist : Path)
  : M (list string) :=
  res <- _run h (bootout_cmd h plist) ;;
  let errors := errors ++ bootout_errors plist res in
  fs <- with_fs id ;;
  match unlink fs plist with
  | Unlinked fs' => set_fs fs' ;; ret errors
  | UnlinkFileNotFound => ret errors
  | UnlinkOSError exc => ret (errors ++ ["Remove " +:+ name_of plist +:+ ": " +:+ exc])
  end.

Fixpoint cleanup_loop (h : host) (errors : list string) (plists : list Path)
  : M (list string) :=
  match plists with
  | [] => ret errors
  | plist :: rest =>
      errors <- cleanup_plist h errors plist ;;
      cleanup_loop h errors rest
  end.

Fixpoint eprint_all (lines : list string) : M unit :=
  match lines with
  | [] => ret tt
  | err :: rest => eprint err ;; eprint_all rest
  end.

Definition cmd_cleanup (h : host) : M Z :=
  let plists := _launch_agent_paths h in
  errors <- cleanup_loop h [] plists ;;
  match errors with
  | _ :: _ => eprint_all errors ;; ret 1
  | [] => print "🧹 Launch agents removed." ;; ret 0
  end.

(** ** Parser and entry point *)

(** [args.func(args)].  [sunproject] registers only [help],
    [location_change], [background_change] and [post_install]; for any
    other subcommand its parser ends the process with status 2. *)
Definition func (h : host) (a : program) (x : args) : M Z :=
  match x, a with
  | Help, _ => cmd_help a
  | Location_change lat lon, _ => cmd_location_change h a lat lon
  | Background_change mode, _ => cmd_background_change h a mode
  | Post_install, _ => cmd_post_install h a
  | Cleanup, Riset => cmd_cleanup h
  | Morning, Riset => cmd_morning h
  | Evening, Riset => cmd_evening h
  | Day_image image, Riset => cmd_day_image h image
  | Night_image image, Riset => cmd_night_image h image
  | _, Sunproject => raise (SystemExit 2)
  end.

(** The [try]/[except] of [main]: a handler's result, or the exception
    that left it, as an exit code. *)
Definition catch (r : result Z * state) : Z * state :=
  match r with
  | (Ok code, s') => (code, s')
  | (Raise (SystemExit code), s') => (code, s')
  | (Raise (Exception e), s') =>
      (1, {| st_fs := st_fs s'; st_log := st_log s' ++ [EvStderr ("Error: " +:+ e)] |})
  end.

(** [main]: the exit code, and the state the run leaves. *)
Definition main (h : host) (a : program) (x : args) (s : state) : Z * state :=
  catch (func h a x s).

(* ================================================================== *)
(** * Reading the event log *)

Definition is_spawn (ev : event) : bool :=
  match ev with EvSpawn _ _ _ => true | _ => false end.

(** The processes a run started, in order, each with its command line,
    the environment handed to it and what came back. *)
Definition spawns (l : list event) : list event := List.filter is_spawn l.

(** The command lines alone. *)
Definition spawned (l : list event) : list (list string) :=
  flat_map (fun ev => match ev with EvSpawn cmd _ _ => [cmd] | _ => [] end) l.

(** The lines written to the error stream. *)
Definition stderr_lines (l : list event) : list string :=
  flat_map (fun ev => match ev with EvStderr t => [t] | _ => [] end) l.

(* ================================================================== *)
(** * The locator as an ordered candidate list *)

(** The search order as the specification words it, with the meaning of
    "the variable is set" left open: [is_set] decides, from the value of
    a variable that is present, whether it counts. *)
Section Candidates.
Variable is_set : string -> bool.

Definition override_candidate (h : host) (a : program) (name : string)
  : result (list Path) :=
  match getenv h (env_key a name) with
  | Some v =>
      if is_set v then
        match expanduser h (Path_of v) with
        | Ok p => Ok [p]
        | Raise e => Raise e
        end
      else Ok []
  | None => Ok []
  end.

Definition share_candidates (h : host) (a : program) (name : string) : list Path :=
  match getenv h "HOMEBREW_PREFIX" with
  | Some hb => if is_set hb then [Path_of hb // "share" // APP_NAME a // name] else []
  | None => []
  end
  ++ [ Path_of "/opt/homebrew/share" // APP_NAME a // name;
       Path_of "/usr/local/share" // APP_NAME a // name ].

(** The candidates in search order. *)
Definition candidates (h : host) (a : program) (name : string) : result (list Path) :=
  match override_candidate h a name with
  | Raise e => Raise e
  | Ok o => Ok (o ++ [repo_root h // name] ++ share_candidates h a name)
  end.

(** First existing candidate, or nothing. *)
Definition locate (h : host) (a : program) (fs : fsmap) (name : string)
  : result (option Path) :=
  match candidates h a name with
  | Raise e => Raise e
  | Ok l => Ok (List.find (exists_ fs) l)
  end.
End Candidates.

(** "Set" read as "present in the environment", whatever the value. *)
Definition locate_when_present := locate (fun _ => true).

(** "Set" read as "present with a non-empty value". *)
Definition locate_when_nonempty := locate Str.truthy.

(* ================================================================== *)
(** * Notions used in the statements *)

(** The subcommands whose handler starts with [_scripts_dir()]. *)
Definition needs_scripts (a : program) (x : args) : bool :=
  match x, a with
  | Background_change _, _ | Post_install, _ => true
  | Morning, Riset | Evening, Riset => true
  | _, _ => false
  end.

(** The message tells that the agent or its descriptor was not there. *)
Definition says_absent (msg : string) : bool :=
  Str.contains "No such process" msg || Str.contains "No such file or directory" msg.

(** What [plist.unlink()] leaves of the file system, and what it adds
    to [errors], in [cmd_cleanup]. *)
Definition after_unlink (fs : fsmap) (plist : Path) : fsmap :=
  match unlink fs plist with
  | Unlinked fs' => fs'
  | _ => fs
  end.

Definition unlink_errors (fs : fsmap) (plist : Path) : list string :=
  match unlink fs plist with
  | UnlinkOSError exc => ["Remove " +:+ name_of plist +:+ ": " +:+ exc]
  | _ => []
  end.

(** [n] runs of [riset cleanup] in succession: the exit codes in order,
    and the final state. *)
Fixpoint cleanup_runs (h : host) (n : nat) (s : state) : list Z * state :=
  match n with
  | O => ([], s)
  | S n' =>
      let r := main h Riset Cleanup s in
      let rs := cleanup_runs h n' (snd r) in
      (fst r :: fst rs, snd rs)
  end.

(** [_read_config] on the lines of the file. *)
Definition parse_lines (lines : list string) : result Dict.t :=
  List.fold_left _read_config_line lines (Ok []).

Fixpoint all_chars (f : ascii -> bool) (s : string) : bool :=
  match s with
  | EmptyString => true
  | String c r => f c && all_chars f r
  end.

Definition no_linebreak (s : string) : bool :=
  all_chars (fun c => negb (Str.is_linebreak c)) s.

(** An entry that survives the line format: key and value carry no
    surrounding white space and no line boundary, the key holds no [=]
    and does not start with [#]. *)
Definition storable (kv : string * string) : bool :=
  String.eqb (Str.strip (fst kv)) (fst kv)
  && String.eqb (Str.strip (snd kv)) (snd kv)
  && no_linebreak (fst kv) && no_linebreak (snd kv)
  && all_chars (fun c => negb (Ascii.eqb c "=")) (fst kv)
  && negb (Str.startswith "#" (fst kv)).

(** A line [_read_config] passes over: blank, a comment, or without
    [=]. *)
Definition malformed (line : string) : Prop :=
  Str.strip line = EmptyString
  \/ Str.startswith "#" (Str.strip line) = true
  \/ Str.contains "=" line = false.

(** The text of a list of lines, each closed by a line feed. *)
Definition unlines (lines : list string) : string :=
  List.fold_right (fun l acc => l +:+ LF +:+ acc) EmptyString lines.

(* ================================================================== *)
(** * Example hosts and file systems *)

Definition nothing_runs : list string -> option env -> fsmap -> result CompletedProcess * fsmap :=
  fun _ _ fs => (Raise (Exception "[Errno 2] No such file or directory"), fs).

(** An oracle that answers the listed command lines and leaves the file
    system alone; anything else cannot be started. *)
Definition scripted (table : list (list string * CompletedProcess))
  : list string -> option env -> fsmap -> result CompletedProcess * fsmap :=
  fun cmd e fs =>
    match List.find (fun row => bool_decide (fst row = cmd)) table with
    | Some row => (Ok (snd row), fs)
    | None => nothing_runs cmd e fs
    end.

Definition answer (code : Z) (out err : string) : CompletedProcess :=
  {| returncode := code; stdout := out; stderr := err |}.

(** A host with the given environment and process oracle, a user with
    home [/Users/dev] and the program checked out in [/Users/dev/repo]. *)
Definition a_host (e : env)
    (sp : list string -> option env -> fsmap -> result CompletedProcess * fsmap) : host :=
  {| environ := e;
     home := Path_of "/Users/dev";
     pw_dir := fun _ => None;
     repo_root := Path_of "/Users/dev/repo";
     executable := "/usr/bin/python3";
     uid := 501;
     spawn := sp |}.

Definition fresh (fs : fsmap) : state := {| st_fs := fs; st_log := [] |}.

(** Nothing installed anywhere, nothing in the environment. *)
Definition host_bare : host := a_host ∅ nothing_runs.

(** The override variable naming an installed scripts directory, with a
    checkout and a Homebrew copy present as well. *)
Definition host_override_dir : host :=
  a_host {[ "RISET_SCRIPTS_DIR" := "~/wall/scripts" ]} nothing_runs.

Definition fs_three_copies : fsmap :=
  <[ "/Users/dev/wall/scripts" := Dir ]>
  (<[ "/Users/dev/repo/scripts" := Dir ]>
  {[ "/opt/homebrew/share/riset/scripts" := Dir ]}).

(** The override variable present but empty, on an empty file system. *)
Definition host_empty_override : host :=
  a_host {[ "RISET_SCRIPTS_DIR" := EmptyString ]} nothing_runs.

(** [HOMEBREW_PREFIX] present but empty, with [share/riset/scripts]
    under the current directory. *)
Definition host_empty_prefix : host :=
  a_host {[ "HOMEBREW_PREFIX" := EmptyString ]} nothing_runs.

Definition fs_relative_share : fsmap := {[ "share/riset/scripts" := Dir ]}.

(** The override variable naming a regular file. *)
Definition host_override_file : host :=
  a_host {[ "RISET_SCRIPTS_DIR" := "/tmp/notes.txt" ]} nothing_runs.

Definition fs_notes : fsmap := {[ "/tmp/notes.txt" := File "remember the milk" ]}.

(** A checkout with every delegate script in place. *)
Definition fs_all_scripts : fsmap :=
  <[ "/Users/dev/repo/scripts" := Dir ]>
  (<[ "/Users/dev/repo/scripts/wallpaper_times.sh" := File "#!/bin/bash" ]>
  (<[ "/Users/dev/repo/scripts/compute_mode.sh" := File "#!/bin/bash" ]>
  (<[ "/Users/dev/repo/scripts/wallpaper_morning.sh" := File "#!/bin/bash" ]>
  {[ "/Users/dev/repo/scripts/wallpaper_evening.sh" := File "#!/bin/bash" ]}))).

Definition host_unified : host :=
  a_host ∅ (scripted [(["/Users/dev/repo/scripts/wallpaper_times.sh"], answer 0 "" "")]).

(** A checkout with the decision delegate and the night script only. *)
Definition fs_split_night : fsmap :=
  <[ "/Users/dev/repo/scripts" := Dir ]>
  (<[ "/Users/dev/repo/scripts/compute_mode.sh" := File "#!/bin/bash" ]>
  {[ "/Users/dev/repo/scripts/wallpaper_evening.sh" := File "#!/bin/bash" ]}).

Definition NIGHT_LF : string := "NIGHT" +:+ LF.
Definition day_LF : string := "day" +:+ LF.

Definition host_says_night : host :=
  a_host ∅ (scripted [(["/Users/dev/repo/scripts/compute_mode.sh"], answer 0 NIGHT_LF "");
                      (["/Users/dev/repo/scripts/wallpaper_evening.sh"], answer 0 "" "")]).

(** The decision delegate answers [day] where only the night script is
    installed. *)
Definition host_says_day : host :=
  a_host ∅ (scripted [(["/Users/dev/repo/scripts/compute_mode.sh"], answer 0 day_LF "")]).

(** An assets directory in the checkout, holding the current day image. *)
Definition fs_assets : fsmap :=
  <[ "/Users/dev/repo/assets" := Dir ]>
  {[ "/Users/dev/repo/assets/morning.jpg" := File "old day image" ]}.

(** A parent environment that already carries a latitude, and a stored
    config with both coordinates. *)
Definition env_with_lat : env :=
  <[ "RISET_LAT" := "1.5" ]> {[ "PATH" := "/usr/bin:/bin" ]}.

Definition config_text : string :=
  "# riset config" +:+ LF +:+ "lat=41.0082" +:+ LF +:+ "lon=28.9784" +:+ LF.

Definition fs_installed : fsmap :=
  <[ "/Users/dev/repo/scripts" := Dir ]>
  (<[ "/Users/dev/repo/scripts/wallpaper_times.sh" := File "#!/bin/bash" ]>
  {[ "/Users/dev/.config/riset/config.toml" := File config_text ]}).

Definition host_with_lat : host :=
  a_host env_with_lat (fun cmd e fs => (Ok (answer 0 "" ""), fs)).

(** [launchctl bootout] finds nothing to unload. *)
Definition host_no_agents : host :=
  a_host ∅ (fun cmd e fs =>
              (Ok (answer 3 "" "Boot-out failed: 3: No such process"), fs)).

(** [launchctl bootout] fails without a word. *)
Definition host_silent_failure : host :=
  a_host ∅ (fun cmd e fs => (Ok (answer 1 "" ""), fs)).

(** [launchctl bootout] is refused. *)
Definition host_bootout_refused : host :=
  a_host ∅ (fun cmd e fs =>
              (Ok (answer 1 "" "Boot-out failed: 1: Operation not permitted"), fs)).

Definition istanbul : Dict.t := [("lat", "41.0082"); ("lon", "28.9784")].

(** A stored config with a third entry, and white space around the
    separator. *)
Definition config_text_zone : string :=
  "# riset config" +:+ LF +:+ "lat = 41.0082" +:+ LF +:+ "zone=Europe/Istanbul" +:+ LF
  +:+ "lon=28.9784" +:+ LF.

Definition fs_config_zone : fsmap :=
  <[ "/Users/dev/.config/riset" := Dir ]>
  {[ "/Users/dev/.config/riset/config.toml" := File config_text_zone ]}.

(** The day script fails with a message on its standard output only. *)
Definition host_morning_fails : host :=
  a_host ∅ (scripted [(["/Users/dev/repo/scripts/wallpaper_morning.sh"],
                        answer 7 ("osascript: no display" +:+ LF) "")]).

(** Every delegate succeeds quietly. *)
Definition host_all_quiet : host :=
  a_host ∅ (fun cmd e fs => (Ok (answer 0 "" ""), fs)).

(** A checkout whose scripts directory holds the per-mode scripts only. *)
Definition fs_per_mode_only : fsmap :=
  <[ "/Users/dev/repo/scripts" := Dir ]>
  (<[ "/Users/dev/repo/scripts/wallpaper_morning.sh" := File "#!/bin/bash" ]>
  {[ "/Users/dev/repo/scripts/wallpaper_evening.sh" := File "#!/bin/bash" ]}).

(** The unified delegate fails. *)
Definition host_times_fails : host :=
  a_host ∅ (scripted [(["/Users/dev/repo/scripts/wallpaper_times.sh"],
                        answer 3 "" ("no location configured" +:+ LF));
                      (["bash"; "/Users/dev/repo/scripts/wallpaper_times.sh"],
                        answer 3 "" ("no location configured" +:+ LF))]).

(** The common end of [cmd_morning], [cmd_evening] and
    [cmd_background_change] once the script is chosen: a missing script
    ends the command with 2, otherwise the script runs and the
    confirmation [done] is printed. *)
Definition run_script (h : host) (script : Path) (done : string) (s : state)
  : result Z * state :=
  if exists_ (st_fs s) script then
    match _run_or_die h [str script] s with
    | (Ok _, s') => (Ok 0, {| st_fs := st_fs s'; st_log := st_log s' ++ [EvStdout done] |})
    | (Raise e, s') => (Raise e, s')
    end
  else (Ok 2, {| st_fs := st_fs s;
                 st_log := st_log s ++ [EvStderr ("Expected script not found: " +:+ str script)] |}).

(** What a run shows apart from its standard output: the exit code, the
    file system it leaves, the processes it started and the lines on the
    error stream. *)
Definition observed (r : Z * state) : Z * fsmap * list event * list string :=
  (fst r, st_fs (snd r), spawns (st_log (snd r)), stderr_lines (st_log (snd r))).

(** Both launch agents installed, next to an unrelated agent. *)
Definition fs_agents : fsmap :=
  <[ "/Users/dev/Library/LaunchAgents/com.riset.sunrise.plist" := File "<plist/>" ]>
  (<[ "/Users/dev/Library/LaunchAgents/com.riset.sunset.plist" := File "<plist/>" ]>
  {[ "/Users/dev/Library/LaunchAgents/com.other.agent.plist" := File "<plist/>" ]}).

(** A checkout with its assets and a picture to install. *)
Definition fs_pictures : fsmap :=
  <[ "/Users" := Dir ]>
  (<[ "/Users/dev" := Dir ]>
  (<[ "/Users/dev/repo" := Dir ]>
  (<[ "/Users/dev/repo/assets" := Dir ]>
  (<[ "/Users/dev/repo/assets/morning.jpg" := File "old day image" ]>
  {[ "/Users/dev/Pictures/beach.jpg" := File "beach at noon" ]})))).

(** White space only. *)
Definition all_space (w : string) : bool := all_chars Str.is_space w.

(** A directory where the config file should be. *)
Definition fs_config_is_dir : fsmap :=
  <[ "/Users/dev/.config/riset/config.toml" := Dir ]> fs_all_scripts.

Definition TAB : string := String "009" EmptyString.

(** The decision delegate answers in capitals, with white space around. *)
Definition host_says_Day : host :=
  a_host ∅ (scripted [(["/Users/dev/repo/scripts/compute_mode.sh"],
                        answer 0 ((" " +:+ TAB) +:+ "Day" +:+ (" " +:+ LF)) "");
                      (["/Users/dev/repo/scripts/wallpaper_morning.sh"], answer 0 "" "")]).

(** A checkout with the decision delegate and both per-mode scripts. *)
Definition fs_split : fsmap :=
  <[ "/Users/dev/repo/scripts/compute_mode.sh" := File "#!/bin/bash" ]> fs_per_mode_only.
(* ================================================================== *)
(** * The locator *)

Lemma find_dir_share_find fs name bases :
  _find_dir_share fs name bases
  = List.find (exists_ fs) (List.map (fun b => b // name) bases).
Proof.
  induction bases as [|b bs IH]; simpl; [reflexivity|].
  destruct (exists_ fs (b // name)); [reflexivity | exact IH].
Qed.

Lemma share_candidates_map h a name :
  List.map (fun b => b // name) (_homebrew_share_candidates h a)
  = share_candidates Str.truthy h a name.
Proof.
  unfold _homebrew_share_candidates, share_candidates.
  destruct (getenv h "HOMEBREW_PREFIX") as [hb|]; [destruct (Str.truthy hb)|]; reflexivity.
Qed.

Lemma find_dir_installed_find h a fs name :
  _find_dir_installed h a fs name
  = List.find (exists_ fs) ([repo_root h // name] ++ share_candidates Str.truthy h a name).
Proof.
  unfold _find_dir_installed, _repo_root_from_this_file.
  rewrite find_dir_share_find, share_candidates_map. simpl.
  destruct (exists_ fs (repo_root h // name)); reflexivity.
Qed.

Lemma find_dir_refines h a fs name :
  _find_dir h a fs name = locate_when_nonempty h a fs name.
Proof.
  unfold _find_dir, locate_when_nonempty, locate, candidates, override_candidate.
  rewrite find_dir_installed_find.
  destruct (getenv h (env_key a name)) as [v|]; [|reflexivity].
  destruct (Str.truthy v); [|reflexivity].
  destruct (expanduser h (Path_of v)) as [p|e]; [|reflexivity].
  simpl. destruct (exists_ fs p); reflexivity.
Qed.

Lemma find_some_true {A} (f : A -> bool) l x : List.find f l = Some x -> f x = true.
Proof. intros H. apply List.find_some in H. tauto. Qed.

Lemma find_dir_exists h a fs name p :
  _find_dir h a fs name = Ok (Some p) -> exists_ fs p = true.
Proof.
  rewrite find_dir_refines. unfold locate_when_nonempty, locate.
  destruct (candidates Str.truthy h a name) as [l|e]; [|discriminate].
  intros [= H]. exact (find_some_true _ _ _ H).
Qed.

Lemma find_none_forall {A} (f : A -> bool) l :
  Forall (fun x => f x = false) l -> List.find f l = None.
Proof.
  induction 1 as [|x l Hx _ IH]; simpl; [reflexivity|]. rewrite Hx. exact IH.
Qed.

Lemma find_dir_none h a fs name l :
  candidates Str.truthy h a name = Ok l ->
  Forall (fun p => exists_ fs p = false) l ->
  _find_dir h a fs name = Ok None.
Proof.
  intros Hc Hl. rewrite find_dir_refines. unfold locate_when_nonempty, locate.
  rewrite Hc. f_equal. apply find_none_forall, Hl.
Qed.




(** C8, as amended.  Whenever the locator returns a path, that path
    exists at resolution time (as a directory or as anything else). *)
Theorem find_dir_result_exists (h : host) (a : program) (fs : fsmap) (name : string) (p : Path) :
  _find_dir h a fs name = Ok (Some p) -> exists_ fs p = true.
Proof. apply find_dir_exists. Qed.

Lemma find_dir_result_exists_witness :
  _find_dir host_override_dir Riset fs_three_copies "scripts"
    = Ok (Some (Path_of "/Users/dev/wall/scripts"))
  /\ exists_ fs_three_copies (Path_of "/Users/dev/wall/scripts") = true.
Proof.
  assert (H : _find_dir host_override_dir Riset fs_three_copies "scripts"
              = Ok (Some (Path_of "/Users/dev/wall/scripts"))) by (vm_compute; reflexivity).
  split; [exact H | exact (find_dir_result_exists _ _ _ _ _ H)].
Defined.

(** C8 as stated fails: an override variable naming a regular file makes
    the locator return that file, which is not a directory. *)
Lemma find_dir_returns_regular_file :
  _find_dir host_override_file Riset fs_notes "scripts" = Ok (Some (Path_of "/tmp/notes.txt"))
  /\ is_dir fs_notes (Path_of "/tmp/notes.txt") = false
  /\ is_file fs_notes (Path_of "/tmp/notes.txt") = true.
Proof. vm_compute. repeat split; reflexivity. Qed.

(* ------------------------------------------------------------------ *)
(** * Running handlers *)

Lemma bind_ok {A B} (m : M A) (k : A -> M B) s a s' :
  m s = (Ok a, s') -> bind m k s = k a s'.
Proof. unfold bind. intros ->. reflexivity. Qed.

Lemma bind_raise {A B} (m : M A) (k : A -> M B) s e s' :
  m s = (Raise e, s') -> bind m k s = (Raise e, s').
Proof. unfold bind. intros ->. reflexivity. Qed.

Lemma scripts_dir_none h a s :
  _find_dir h a (st_fs s) "scripts" = Ok None ->
  _scripts_dir h a s = (Raise (Exception (scripts_dir_missing a)), s).
Proof.
  intros H. unfold _scripts_dir.
  rewrite (bind_ok _ _ s None s); [reflexivity|].
  unfold find_dir. rewrite H. reflexivity.
Qed.

Lemma scripts_dir_some h a s p :
  _find_dir h a (st_fs s) "scripts" = Ok (Some p) ->
  _scripts_dir h a s = (Ok p, s).
Proof.
  intros H. unfold _scripts_dir.
  rewrite (bind_ok _ _ s (Some p) s); [reflexivity|].
  unfold find_dir. rewrite H. reflexivity.
Qed.




(* ------------------------------------------------------------------ *)
(** * Background change *)

Lemma bind_with_fs {A B} (f : fsmap -> A) (k : A -> M B) s :
  bind (with_fs f) k s = k (f (st_fs s)) s.
Proof. reflexivity. Qed.

Lemma run_or_die_eq h cmd s :
  _run_or_die h cmd s =
  let r := spawn h cmd None (st_fs s) in
  let s1 := {| st_fs := snd r; st_log := st_log s ++ [EvSpawn cmd None (fst r)] |} in
  match fst r with
  | Raise e => (Raise e, s1)
  | Ok res =>
      if returncode res =? 0 then (Ok (Str.strip (stdout res)), s1)
      else (Raise (SystemExit (returncode res)),
            {| st_fs := snd r;
               st_log := (st_log s ++ [EvSpawn cmd None (fst r)])
                         ++ [EvStderr (Str.or_else (Str.strip (stderr res))
                                         (Str.or_else (Str.strip (stdout res))
                                            ("Command failed: " +:+ Str.join " " cmd)))] |})
  end.
Proof.
  unfold _run_or_die, _run, subprocess_run, bind, eprint, log, raise, ret.
  destruct (spawn h cmd None (st_fs s)) as [[res|e] fs']; cbn [fst snd]; [|reflexivity].
  destruct (returncode res =? 0) eqn:E; cbn [negb]; [reflexivity|].
  cbn [st_fs st_log]. reflexivity.
Qed.

Lemma run_or_die_ok h cmd s res fs' :
  spawn h cmd None (st_fs s) = (Ok res, fs') -> returncode res = 0 ->
  _run_or_die h cmd s
  = (Ok (Str.strip (stdout res)),
     {| st_fs := fs'; st_log := st_log s ++ [EvSpawn cmd None (Ok res)] |}).
Proof. intros Hs H0. rewrite run_or_die_eq, Hs. cbn [fst snd]. rewrite H0. reflexivity. Qed.

(** Whatever the child does, [_run_or_die] starts exactly that child. *)
Lemma run_or_die_spawned h cmd s :
  spawned (st_log (snd (_run_or_die h cmd s))) = spawned (st_log s) ++ [cmd].
Proof.
  rewrite run_or_die_eq. cbv zeta.
  destruct (fst (spawn h cmd None (st_fs s))) as [res|e]; [destruct (returncode res =? 0)|];
    cbn [snd st_log]; unfold spawned; rewrite ?flat_map_app; cbn [flat_map List.app];
    rewrite ?app_nil_r; reflexivity.
Qed.

Lemma spawned_app l1 l2 : spawned (l1 ++ l2) = spawned l1 ++ spawned l2.
Proof. unfold spawned. apply flat_map_app. Qed.

Lemma catch_spawned_raise e s :
  spawned (st_log (snd (catch (Raise e, s)))) = spawned (st_log s).
Proof.
  destruct e as [c|m]; cbn [catch snd st_log]; [reflexivity|].
  rewrite spawned_app. cbn. apply app_nil_r.
Qed.

Lemma background_auto_unified h a s sdir :
  _find_dir h a (st_fs s) "scripts" = Ok (Some sdir) ->
  exists_ (st_fs s) (sdir // "wallpaper_times.sh") = true ->
  func h a (Background_change "auto") s
  = match _run_or_die h [str (sdir // "wallpaper_times.sh")] s with
    | (Ok _, s') =>
        (Ok 0, {| st_fs := st_fs s';
                  st_log := st_log s' ++ [EvStdout "🖼️  Wallpaper set automatically (day/night)."] |})
    | (Raise e, s') => (Raise e, s')
    end.
Proof.
  intros Hd Hex.
  destruct a; cbn [func]; unfold cmd_background_change;
    rewrite (bind_ok _ _ _ _ _ (scripts_dir_some _ _ _ _ Hd));
    change (String.eqb "auto" "auto") with true; cbv iota;
    rewrite bind_with_fs, Hex; cbv iota;
    unfold bind at 1;
    destruct (_run_or_die _ _ s) as [[out|e] s']; reflexivity.
Qed.

(** C1.  For background_change with mode auto, if wallpaper_times.sh
    exists in the resolved scripts directory then it is the one process
    the command starts (neither compute_mode.sh nor a per-mode script is
    run), and when it exits zero the command prints the
    automatic-success confirmation and returns exit code 0. *)
Theorem auto_runs_unified_delegate_alone (h : host) (a : program) (s : state) (sdir : Path) :
  _find_dir h a (st_fs s) "scripts" = Ok (Some sdir) ->
  exists_ (st_fs s) (sdir // "wallpaper_times.sh") = true ->
  let times_script := sdir // "wallpaper_times.sh" in
  let r := spawn h [str times_script] None (st_fs s) in
  spawned (st_log (snd (main h a (Background_change "auto") s)))
    = spawned (st_log s) ++ [[str times_script]]
  /\ (forall res, fst r = Ok res -> returncode res = 0 ->
      main h a (Background_change "auto") s
      = (0, {| st_fs := snd r;
               st_log := st_log s ++ [EvSpawn [str times_script] None (Ok res);
                                      EvStdout "🖼️  Wallpaper set automatically (day/night)."] |})).
Proof.
  intros Hd Hex times_script r. unfold main.
  rewrite (background_auto_unified _ _ _ _ Hd Hex). fold times_script.
  split.
  - pose proof (run_or_die_spawned h [str times_script] s) as Hsp.
    destruct (_run_or_die h [str times_script] s) as [[out|e] s']; cbn [snd] in Hsp.
    + cbn [catch snd st_log]. rewrite spawned_app, Hsp. cbn. apply app_nil_r.
    + rewrite catch_spawned_raise. exact Hsp.
  - intros res Hr H0.
    rewrite (run_or_die_ok h _ s res (snd r)); [|destruct (spawn _ _ _ _); cbn in *; congruence|exact H0].
    cbn [catch st_fs st_log]. rewrite <- app_assoc. reflexivity.
Qed.

Lemma auto_runs_unified_delegate_alone_witness :
  spawned (st_log (snd (main host_unified Riset (Background_change "auto") (fresh fs_all_scripts))))
    = [["/Users/dev/repo/scripts/wallpaper_times.sh"]]
  /\ main host_unified Riset (Background_change "auto") (fresh fs_all_scripts)
     = (0, {| st_fs := fs_all_scripts;
              st_log := [EvSpawn ["/Users/dev/repo/scripts/wallpaper_times.sh"] None (Ok (answer 0 "" ""));
                         EvStdout "🖼️  Wallpaper set automatically (day/night)."] |}).
Proof.
  destruct (auto_runs_unified_delegate_alone host_unified Riset (fresh fs_all_scripts)
              (Path_of "/Users/dev/repo/scripts")) as [Hsp Hmain].
  - vm_compute. reflexivity.
  - vm_compute. reflexivity.
  - split; [exact Hsp|]. apply (Hmain (answer 0 "" "")); reflexivity.
Defined.

Lemma background_auto_decision h a s sdir res fs1 :
  _find_dir h a (st_fs s) "scripts" = Ok (Some sdir) ->
  exists_ (st_fs s) (sdir // "wallpaper_times.sh") = false ->
  exists_ (st_fs s) (sdir // "compute_mode.sh") = true ->
  spawn h [str (sdir // "compute_mode.sh")] None (st_fs s) = (Ok res, fs1) ->
  returncode res = 0 ->
  let mode := Str.lower (Str.strip (Str.strip (stdout res))) in
  let s1 := {| st_fs := fs1;
               st_log := st_log s ++ [EvSpawn [str (sdir // "compute_mode.sh")] None (Ok res)] |} in
  func h a (Background_change "auto") s
  = if negb (String.eqb mode "day" || String.eqb mode "night")
    then (Ok 2, {| st_fs := fs1;
                   st_log := st_log s1 ++ [EvStderr ("Invalid mode from compute_mode.sh: " +:+ mode)] |})
    else apply_mode h sdir mode s1.
Proof.
  intros Hd Ht Hc Hs H0 mode s1.
  destruct a; cbn [func]; unfold cmd_background_change;
    rewrite (bind_ok _ _ _ _ _ (scripts_dir_some _ _ _ _ Hd));
    change (String.eqb "auto" "auto") with true; cbv iota;
    rewrite bind_with_fs, Ht; cbv iota;
    rewrite bind_with_fs, Hc; cbv iota;
    rewrite (bind_ok _ _ _ _ _ (run_or_die_ok _ _ _ _ _ Hs H0));
    fold mode; fold s1;
    destruct (negb (String.eqb mode "day" || String.eqb mode "night")); reflexivity.
Qed.

Lemma apply_mode_script h sdir mode script s :
  mode_script sdir mode = Some script ->
  apply_mode h sdir mode s
  = if exists_ (st_fs s) script then
      match _run_or_die h [str script] s with
      | (Ok _, s') =>
          (Ok 0, {| st_fs := st_fs s';
                    st_log := st_log s' ++ [EvStdout ("🖼️  Wallpaper set: " +:+ mode)] |})
      | (Raise e, s') => (Raise e, s')
      end
    else (Ok 2, {| st_fs := st_fs s;
                   st_log := st_log s ++ [EvStderr ("Expected script not found: " +:+ str script)] |}).
Proof.
  intros Hm. unfold apply_mode. rewrite Hm, bind_with_fs.
  destruct (exists_ (st_fs s) script); cbn [negb]; [|reflexivity].
  unfold bind at 1. destruct (_run_or_die h [str script] s) as [[out|e] s']; reflexivity.
Qed.

Lemma mode_script_cases sdir mode script :
  (mode = "day" /\ script = sdir // "wallpaper_morning.sh")
  \/ (mode = "night" /\ script = sdir // "wallpaper_evening.sh") ->
  mode_script sdir mode = Some script
  /\ negb (String.eqb mode "day" || String.eqb mode "night") = false.
Proof. intros [[-> ->]|[-> ->]]; split; reflexivity. Qed.




(* ------------------------------------------------------------------ *)
(** * Image replacement *)

Lemma replace_image_source_missing h src dest_filename label s assets src_path :
  _find_dir h Riset (st_fs s) "assets" = Ok (Some assets) ->
  expanduser h (Path_of src) = Ok src_path ->
  exists_ (st_fs s) src_path = false ->
  _replace_wallpaper_image h src dest_filename label s
  = (Ok 2, {| st_fs := st_fs s;
              st_log := st_log s ++ [EvStderr ("Image not found: " +:+ str src_path)] |}).
Proof.
  intros Hd He Hex. unfold _replace_wallpaper_image.
  rewrite (bind_ok _ _ s (Some assets) s) by (unfold _assets_dir, find_dir; rewrite Hd; reflexivity).
  rewrite (bind_ok _ _ s src_path s) by (unfold lift; rewrite He; reflexivity).
  rewrite bind_with_fs, Hex. reflexivity.
Qed.



(* ------------------------------------------------------------------ *)
(** * The environment of the post-install delegate *)

Lemma setdefault_keeps k v (e : env) k' v' :
  e !! k' = Some v' -> setdefault k v e !! k' = Some v'.
Proof.
  intros H. unfold setdefault. destruct (e !! k) eqn:E; [exact H|].
  rewrite lookup_insert_ne; [exact H|]. intros ->. congruence.
Qed.

Lemma setdefault_absent k v (e : env) :
  e !! k = None -> setdefault k v e !! k = Some v.
Proof. intros H. unfold setdefault. rewrite H. apply lookup_insert_eq. Qed.

Lemma setdefault_other k v (e : env) k' :
  k <> k' -> setdefault k v e !! k' = e !! k'.
Proof.
  intros H. unfold setdefault. destruct (e !! k); [reflexivity|].
  apply lookup_insert_ne, H.
Qed.

Lemma setdefault_new k v (e : env) k' :
  e !! k' = None -> is_Some (setdefault k v e !! k') -> k' = k.
Proof.
  intros Hn Hs. destruct (decide (k = k')) as [->|Hne]; [reflexivity|].
  rewrite setdefault_other, Hn in Hs by exact Hne. destruct Hs; discriminate.
Qed.

Lemma read_config_state h a s : snd (_read_config h a s) = s.
Proof.
  unfold _read_config, bind, with_fs, lift, ret, id.
  destruct (exists_ (st_fs s) (CONFIG_PATH h a)); cbn [negb]; [|reflexivity].
  destruct (read_text (st_fs s) (CONFIG_PATH h a)); reflexivity.
Qed.

Lemma post_install_keeps h a cfg k v :
  environ h !! k = Some v -> post_install_env h a cfg !! k = Some v.
Proof.
  intros H. unfold post_install_env.
  destruct (Dict.get "lon" cfg), (Dict.get "lat" cfg), a;
    repeat apply setdefault_keeps; exact H.
Qed.

Lemma post_install_new h a cfg k :
  environ h !! k = None -> is_Some (post_install_env h a cfg !! k) ->
  (k = ENV_PREFIX a +:+ "_LAT" /\ is_Some (Dict.get "lat" cfg))
  \/ (k = ENV_PREFIX a +:+ "_LON" /\ is_Some (Dict.get "lon" cfg))
  \/ (a = Riset /\ k = "RISET_PYTHON_BIN").
Proof.
  intros Hn. unfold post_install_env.
  set (e0 := match a with
             | Riset => setdefault "RISET_PYTHON_BIN" (executable h) (environ h)
             | Sunproject => environ h
             end).
  assert (H0 : is_Some (e0 !! k) -> a = Riset /\ k = "RISET_PYTHON_BIN").
  { subst e0. destruct a; intros Hs.
    - split; [reflexivity|]. exact (setdefault_new _ _ _ _ Hn Hs).
    - rewrite Hn in Hs. destruct Hs; discriminate. }
  set (e1 := match Dict.get "lat" cfg with
             | Some lat => setdefault (ENV_PREFIX a +:+ "_LAT") lat e0
             | None => e0
             end).
  assert (H1 : is_Some (e1 !! k) ->
               (k = ENV_PREFIX a +:+ "_LAT" /\ is_Some (Dict.get "lat" cfg))
               \/ (a = Riset /\ k = "RISET_PYTHON_BIN")).
  { subst e1. destruct (Dict.get "lat" cfg) as [lat|]; intros Hs; [|right; auto].
    destruct (e0 !! k) eqn:E0; [right; apply H0; eauto|].
    left. split; [exact (setdefault_new _ _ _ _ E0 Hs) | eauto]. }
  destruct (Dict.get "lon" cfg) as [lon|]; intros Hs.
  - destruct (e1 !! k) eqn:E1.
    + destruct H1 as [?|?]; eauto.
    + right; left. split; [exact (setdefault_new _ _ _ _ E1 Hs) | eauto].
  - destruct H1 as [?|?]; auto.
Qed.

Lemma post_install_lat h a cfg :
  environ h !! (ENV_PREFIX a +:+ "_LAT") = None ->
  post_install_env h a cfg !! (ENV_PREFIX a +:+ "_LAT") = Dict.get "lat" cfg.
Proof.
  intros Hn. unfold post_install_env.
  set (e0 := match a with
             | Riset => setdefault "RISET_PYTHON_BIN" (executable h) (environ h)
             | Sunproject => environ h
             end).
  assert (H0 : e0 !! (ENV_PREFIX a +:+ "_LAT") = None).
  { subst e0. destruct a; [|exact Hn]. rewrite setdefault_other; [exact Hn|discriminate]. }
  assert (Hne : ENV_PREFIX a +:+ "_LON" <> ENV_PREFIX a +:+ "_LAT") by (destruct a; discriminate).
  destruct (Dict.get "lon" cfg) as [lon|], (Dict.get "lat" cfg) as [lat|];
    rewrite ?(setdefault_other _ _ _ _ Hne), ?(setdefault_absent _ _ _ H0); auto.
Qed.

Lemma post_install_lon h a cfg :
  environ h !! (ENV_PREFIX a +:+ "_LON") = None ->
  post_install_env h a cfg !! (ENV_PREFIX a +:+ "_LON") = Dict.get "lon" cfg.
Proof.
  intros Hn. unfold post_install_env.
  set (e0 := match a with
             | Riset => setdefault "RISET_PYTHON_BIN" (executable h) (environ h)
             | Sunproject => environ h
             end).
  assert (H0 : e0 !! (ENV_PREFIX a +:+ "_LON") = None).
  { subst e0. destruct a; [|exact Hn]. rewrite setdefault_other; [exact Hn|discriminate]. }
  assert (Hne : ENV_PREFIX a +:+ "_LAT" <> ENV_PREFIX a +:+ "_LON") by (destruct a; discriminate).
  set (e1 := match Dict.get "lat" cfg with
             | Some lat => setdefault (ENV_PREFIX a +:+ "_LAT") lat e0
             | None => e0
             end).
  assert (H1 : e1 !! (ENV_PREFIX a +:+ "_LON") = None).
  { subst e1. destruct (Dict.get "lat" cfg); [|exact H0].
    rewrite (setdefault_other _ _ _ _ Hne). exact H0. }
  destruct (Dict.get "lon" cfg) as [lon|]; [|exact H1].
  apply setdefault_absent, H1.
Qed.

Lemma spawns_app l1 l2 : spawns (l1 ++ l2) = spawns l1 ++ spawns l2.
Proof. unfold spawns. apply List.filter_app. Qed.

Lemma post_install_spawns h a s sdir cfg :
  _find_dir h a (st_fs s) "scripts" = Ok (Some sdir) ->
  exists_ (st_fs s) (sdir // "wallpaper_times.sh") = true ->
  fst (_read_config h a s) = Ok cfg ->
  let cmd := ["bash"; str (sdir // "wallpaper_times.sh")] in
  let child := post_install_env h a cfg in
  spawns (st_log (snd (cmd_post_install h a s)))
  = spawns (st_log s) ++ [EvSpawn cmd (Some child) (fst (spawn h cmd (Some child) (st_fs s)))].
Proof.
  intros Hd Hex Hcfg cmd child. unfold cmd_post_install.
  rewrite (bind_ok _ _ _ _ _ (scripts_dir_some _ _ _ _ Hd)).
  rewrite bind_with_fs, Hex. cbn [negb].
  rewrite (bind_ok _ _ s cfg s)
    by (rewrite (surjective_pairing (_read_config h a s)), Hcfg, read_config_state; reflexivity).
  fold cmd child. unfold bind at 1, subprocess_run.
  destruct (spawn h cmd (Some child) (st_fs s)) as [[res|e] fs']; cbn [fst snd st_log].
  - unfold bind, print, eprint, log, ret.
    destruct (returncode res =? 0); cbn [negb fst snd st_log];
      [destruct (Str.truthy (Str.strip (stdout res))), (Str.truthy (Str.strip (stderr res)))|];
      cbn [fst snd st_log st_fs];
      rewrite !spawns_app; cbn [spawns List.filter is_spawn]; rewrite ?app_nil_r; reflexivity.
  - rewrite spawns_app. reflexivity.
Qed.

(** C9.  post_install starts the delegate with an environment made of
    the whole parent environment plus the stored lat and lon values
    under <PREFIX>_LAT and <PREFIX>_LON, set only if absent: every
    variable of the parent reaches the child with the parent's value,
    none is removed, and <PREFIX>_LAT (<PREFIX>_LON) is added exactly
    when the parent lacks it and the config has lat (lon).  The only
    other variable a child can gain is riset's interpreter path. *)
Theorem post_install_env_is_set_if_absent
    (h : host) (a : program) (s : state) (sdir : Path) (cfg : Dict.t) :
  _find_dir h a (st_fs s) "scripts" = Ok (Some sdir) ->
  exists_ (st_fs s) (sdir // "wallpaper_times.sh") = true ->
  fst (_read_config h a s) = Ok cfg ->
  let cmd := ["bash"; str (sdir // "wallpaper_times.sh")] in
  let child := post_install_env h a cfg in
  spawns (st_log (snd (cmd_post_install h a s)))
    = spawns (st_log s) ++ [EvSpawn cmd (Some child) (fst (spawn h cmd (Some child) (st_fs s)))]
  /\ (forall k v, environ h !! k = Some v -> child !! k = Some v)
  /\ dom (environ h) ⊆ dom child
  /\ (environ h !! (ENV_PREFIX a +:+ "_LAT") = None ->
      child !! (ENV_PREFIX a +:+ "_LAT") = Dict.get "lat" cfg)
  /\ (environ h !! (ENV_PREFIX a +:+ "_LON") = None ->
      child !! (ENV_PREFIX a +:+ "_LON") = Dict.get "lon" cfg)
  /\ (forall k, environ h !! k = None -> is_Some (child !! k) ->
      (k = ENV_PREFIX a +:+ "_LAT" /\ is_Some (Dict.get "lat" cfg))
      \/ (k = ENV_PREFIX a +:+ "_LON" /\ is_Some (Dict.get "lon" cfg))
      \/ (a = Riset /\ k = "RISET_PYTHON_BIN")).
Proof.
  intros Hd Hex Hcfg cmd child.
  split; [exact (post_install_spawns h a s sdir cfg Hd Hex Hcfg)|].
  split; [intros k v; apply post_install_keeps|].
  split.
  { intros k Hk. apply elem_of_dom in Hk as [v Hv]. apply elem_of_dom.
    exists v. apply post_install_keeps, Hv. }
  split; [apply post_install_lat|].
  split; [apply post_install_lon|].
  intros k. apply post_install_new.
Qed.

Lemma post_install_env_is_set_if_absent_witness :
  let child := post_install_env host_with_lat Riset [("lat", "41.0082"); ("lon", "28.9784")] in
  spawns (st_log (snd (cmd_post_install host_with_lat Riset (fresh fs_installed))))
    = [EvSpawn ["bash"; "/Users/dev/repo/scripts/wallpaper_times.sh"] (Some child)
         (Ok (answer 0 "" ""))]
  /\ child !! "PATH" = Some "/usr/bin:/bin"
  /\ child !! "RISET_LAT" = Some "1.5"
  /\ child !! "RISET_LON" = Some "28.9784".
Proof.
  destruct (post_install_env_is_set_if_absent host_with_lat Riset (fresh fs_installed)
              (Path_of "/Users/dev/repo/scripts") [("lat", "41.0082"); ("lon", "28.9784")])
    as (Hsp & Hkeep & _ & _ & Hlon & _); [vm_compute; reflexivity ..|].
  split; [exact Hsp|].
  split; [apply Hkeep; vm_compute; reflexivity|].
  split; [apply Hkeep; vm_compute; reflexivity|].
  apply Hlon. vm_compute. reflexivity.
Defined.

(* ------------------------------------------------------------------ *)
(** * Cleanup *)

Lemma cleanup_plist_eq h errors plist s res fs1 :
  spawn h (bootout_cmd h plist) None (st_fs s) = (Ok res, fs1) ->
  cleanup_plist h errors plist s
  = (Ok (errors ++ bootout_errors plist res ++ unlink_errors fs1 plist),
     {| st_fs := after_unlink fs1 plist;
        st_log := st_log s ++ [EvSpawn (bootout_cmd h plist) None (Ok res)] |}).
Proof.
  intros Hs. unfold cleanup_plist, _run, subprocess_run, bind at 1. rewrite Hs.
  rewrite bind_with_fs. unfold id, after_unlink, unlink_errors. cbn [st_fs].
  destruct (unlink fs1 plist) as [fs'| |exc];
    unfold bind, set_fs, ret; cbn [st_fs st_log];
    rewrite ?app_nil_r, <- ?app_assoc; reflexivity.
Qed.

Lemma eprint_all_eq lines s :
  eprint_all lines s
  = (Ok tt, {| st_fs := st_fs s; st_log := st_log s ++ List.map EvStderr lines |}).
Proof.
  revert s. induction lines as [|l ls IH]; intros s; cbn [eprint_all List.map].
  - unfold ret. rewrite app_nil_r. destruct s; reflexivity.
  - unfold bind, eprint, log. rewrite IH. cbn [st_fs st_log].
    rewrite <- app_assoc. reflexivity.
Qed.

(** One run of cleanup when both bootout calls could be started. *)
Lemma cmd_cleanup_eq h s p1 p2 res1 fs1 res2 fs2 :
  _launch_agent_paths h = [p1; p2] ->
  spawn h (bootout_cmd h p1) None (st_fs s) = (Ok res1, fs1) ->
  spawn h (bootout_cmd h p2) None (after_unlink fs1 p1) = (Ok res2, fs2) ->
  let errors := (bootout_errors p1 res1 ++ unlink_errors fs1 p1)
                ++ bootout_errors p2 res2 ++ unlink_errors fs2 p2 in
  let log2 := st_log s ++ [EvSpawn (bootout_cmd h p1) None (Ok res1);
                           EvSpawn (bootout_cmd h p2) None (Ok res2)] in
  cmd_cleanup h s
  = match errors with
    | [] => (Ok 0, {| st_fs := after_unlink fs2 p2;
                      st_log := log2 ++ [EvStdout "🧹 Launch agents removed."] |})
    | _ :: _ => (Ok 1, {| st_fs := after_unlink fs2 p2;
                          st_log := log2 ++ List.map EvStderr errors |})
    end.
Proof.
  intros Hp H1 H2 errors log2. unfold cmd_cleanup. rewrite Hp. cbn [cleanup_loop].
  unfold bind at 1. unfold bind at 1.
  rewrite (cleanup_plist_eq h [] p1 s res1 fs1 H1). cbn [List.app].
  unfold bind at 1.
  rewrite (cleanup_plist_eq h _ p2 _ res2 fs2) by exact H2.
  unfold ret at 1. cbn [st_log]. fold errors.
  replace ((st_log s ++ [EvSpawn (bootout_cmd h p1) None (Ok res1)])
           ++ [EvSpawn (bootout_cmd h p2) None (Ok res2)]) with log2
    by (subst log2; rewrite <- app_assoc; reflexivity).
  destruct errors as [|e es].
  - reflexivity.
  - unfold bind. rewrite eprint_all_eq. reflexivity.
Qed.

Lemma bootout_errors_absent plist res :
  says_absent (bootout_message res) = true -> bootout_errors plist res = [].
Proof.
  unfold says_absent, bootout_errors. intros H.
  destruct (negb _); [|reflexivity].
  apply orb_true_iff in H as [-> | ->]; cbn [negb andb];
    rewrite ?andb_false_r; reflexivity.
Qed.

Lemma unlink_absent fs plist :
  exists_ fs plist = false ->
  after_unlink fs plist = fs /\ unlink_errors fs plist = [].
Proof.
  unfold exists_, after_unlink, unlink_errors, unlink.
  destruct (stat fs plist); [discriminate|]. split; reflexivity.
Qed.

(** The empty system: no descriptor file, and a bootout that reports
    the agent as absent and changes nothing. *)
Section EmptySystem.
Variable h : host.
Variable fs : fsmap.
Hypothesis no_descriptor :
  forall plist, In plist (_launch_agent_paths h) -> exists_ fs plist = false.
Hypothesis bootout_absent :
    forall plist, In plist (_launch_agent_paths h) ->
    exists res, spawn h (bootout_cmd h plist) None fs = (Ok res, fs)
                /\ says_absent (bootout_message res) = true.

Lemma cleanup_on_empty_system (s : state) :
  st_fs s = fs ->
  exists log',
    main h Riset Cleanup s
    = (0, {| st_fs := fs; st_log := st_log s ++ log' ++ [EvStdout "🧹 Launch agents removed."] |})
    /\ stderr_lines log' = [].
Proof.
  intros Hfs.
  destruct (bootout_absent _ (or_introl eq_refl)) as (res1 & H1 & A1).
  destruct (bootout_absent _ (or_intror (or_introl eq_refl))) as (res2 & H2 & A2).
  destruct (unlink_absent fs _ (no_descriptor _ (or_introl eq_refl))) as [U1 E1].
  destruct (unlink_absent fs _ (no_descriptor _ (or_intror (or_introl eq_refl)))) as [U2 E2].
  eexists [EvSpawn _ None (Ok res1); EvSpawn _ None (Ok res2)].
  split; [|reflexivity].
  unfold main. cbn [func].
  rewrite (cmd_cleanup_eq h s _ _ res1 fs res2 fs eq_refl)
    by (rewrite ?Hfs, ?U1; assumption).
  rewrite U2, E1, E2, !(bootout_errors_absent _ _ A1), !(bootout_errors_absent _ _ A2).
  cbn [List.app catch]. rewrite <- app_assoc. reflexivity.
Qed.

Lemma stderr_lines_app l1 l2 : stderr_lines (l1 ++ l2) = stderr_lines l1 ++ stderr_lines l2.
Proof. unfold stderr_lines. apply flat_map_app. Qed.

Lemma cleanup_runs_on_empty_system (n : nat) (s : state) :
  st_fs s = fs ->
  fst (cleanup_runs h n s) = repeat 0 n
  /\ st_fs (snd (cleanup_runs h n s)) = fs
  /\ stderr_lines (st_log (snd (cleanup_runs h n s))) = stderr_lines (st_log s).
Proof.
  revert s. induction n as [|n IH]; intros s Hfs; cbn [cleanup_runs repeat fst snd].
  - auto.
  - destruct (cleanup_on_empty_system s Hfs) as (log' & Hrun & Herr).
    rewrite Hrun. cbn [fst snd].
    destruct (IH {| st_fs := fs;
                    st_log := st_log s ++ log' ++ [EvStdout "🧹 Launch agents removed."] |}
                 eq_refl) as (Hc & Hf & Hl).
    rewrite Hc, Hf, Hl. cbn [st_log].
    rewrite !stderr_lines_app, Herr. cbn. rewrite app_nil_r. auto.
Qed.

End EmptySystem.






(* ------------------------------------------------------------------ *)
(** * Text lemmas *)

Lemma append_cons c s t : String c s +:+ t = String c (s +:+ t).
Proof. reflexivity. Qed.

Lemma append_nil_l s : EmptyString +:+ s = s.
Proof. reflexivity. Qed.

Lemma append_nil_r s : s +:+ EmptyString = s.
Proof.
  induction s as [|c s IH]; [reflexivity|]. rewrite append_cons, IH. reflexivity.
Qed.

Lemma append_assoc s1 s2 s3 : (s1 +:+ s2) +:+ s3 = s1 +:+ s2 +:+ s3.
Proof.
  induction s1 as [|c s IH]; [reflexivity|]. rewrite !append_cons, IH. reflexivity.
Qed.

Lemma truthy_append a b : Str.truthy b = true -> Str.truthy (a +:+ b) = true.
Proof. destruct a; [rewrite append_nil_l; auto | reflexivity]. Qed.

Lemma all_chars_append f a b :
  all_chars f (a +:+ b) = all_chars f a && all_chars f b.
Proof.
  induction a as [|c a IH]; [reflexivity|].
  rewrite append_cons. cbn [all_chars]. rewrite IH. apply andb_assoc.
Qed.

Lemma lstrip_length s : (String.length (Str.lstrip s) <= String.length s)%nat.
Proof.
  induction s as [|c s IH]; cbn; [lia|]. destruct (Str.is_space c); cbn; lia.
Qed.

Lemma lstrip_fixed_head c s :
  Str.lstrip (String c s) = String c s -> Str.is_space c = false.
Proof.
  cbn. destruct (Str.is_space c); [|reflexivity]. intros H.
  pose proof (lstrip_length s) as L. rewrite H in L. cbn in L. lia.
Qed.

Lemma lstrip_same_length s :
  String.length (Str.lstrip s) = String.length s -> Str.lstrip s = s.
Proof.
  destruct s as [|c s]; cbn; [reflexivity|].
  destruct (Str.is_space c); [|reflexivity].
  pose proof (lstrip_length s). lia.
Qed.

Lemma rstrip_length s : (String.length (Str.rstrip s) <= String.length s)%nat.
Proof.
  induction s as [|c s IH]; cbn; [lia|].
  destruct (Str.is_space c && negb (Str.truthy (Str.rstrip s))); cbn; lia.
Qed.

Lemma rstrip_same_length s :
  String.length (Str.rstrip s) = String.length s -> Str.rstrip s = s.
Proof.
  induction s as [|c s IH]; cbn; [reflexivity|].
  destruct (Str.is_space c && negb (Str.truthy (Str.rstrip s))); cbn; [lia|].
  intros H. rewrite IH by lia. reflexivity.
Qed.

Lemma strip_fixed s :
  Str.strip s = s -> Str.lstrip s = s /\ Str.rstrip s = s.
Proof.
  unfold Str.strip. intros H.
  pose proof (lstrip_length (Str.rstrip s)) as L1.
  pose proof (rstrip_length s) as L2. rewrite H in L1.
  assert (R : Str.rstrip s = s) by (apply rstrip_same_length; lia).
  rewrite R in H. auto.
Qed.

Lemma rstrip_append a b :
  Str.truthy (Str.rstrip b) = true -> Str.rstrip (a +:+ b) = a +:+ Str.rstrip b.
Proof.
  intros Hb. induction a as [|c a IH]; [reflexivity|].
  rewrite !append_cons. cbn [Str.rstrip].
  rewrite IH, (truthy_append _ _ Hb), andb_false_r. reflexivity.
Qed.

Lemma lstrip_append a b :
  Str.lstrip a = a -> Str.truthy a = true -> Str.lstrip (a +:+ b) = a +:+ b.
Proof.
  destruct a as [|c a]; [discriminate|]. intros H _.
  apply lstrip_fixed_head in H. rewrite append_cons. cbn [Str.lstrip]. rewrite H. reflexivity.
Qed.

(** An entry line [k=v] is left alone by [strip]. *)
Lemma strip_entry k v :
  Str.strip k = k -> Str.strip v = v ->
  Str.strip (k +:+ "=" +:+ v) = k +:+ "=" +:+ v.
Proof.
  intros Hk Hv. apply strip_fixed in Hk as [Hk _]. apply strip_fixed in Hv as [_ Hv].
  assert (R : Str.rstrip ("=" +:+ v) = "=" +:+ v).
  { change ("=" +:+ v) with (String "=" v). cbn [Str.rstrip].
    rewrite Hv. reflexivity. }
  unfold Str.strip. rewrite rstrip_append by (rewrite R; reflexivity). rewrite R.
  destruct k as [|c k]; [reflexivity|].
  apply lstrip_append; [exact Hk | reflexivity].
Qed.

Lemma startswith_entry k v :
  Str.startswith "#" k = false -> Str.startswith "#" (k +:+ "=" +:+ v) = false.
Proof.
  unfold Str.startswith. destruct k as [|c k]; [reflexivity|].
  rewrite append_cons. cbn [String.prefix].
  destruct (ascii_dec "#" c); [|reflexivity]. destruct k; discriminate.
Qed.

Lemma contains_cons n c s : Str.contains n s = true -> Str.contains n (String c s) = true.
Proof. intros H. cbn [Str.contains]. rewrite H. apply orb_true_r. Qed.

Lemma prefix_nil s : String.prefix EmptyString s = true.
Proof. destruct s; reflexivity. Qed.

Lemma contains_entry k v : Str.contains "=" (k +:+ "=" +:+ v) = true.
Proof.
  induction k as [|c k IH]; [|rewrite append_cons; apply contains_cons, IH].
  change (EmptyString +:+ "=" +:+ v) with (String "=" v).
  cbn [Str.contains String.prefix].
  destruct (ascii_dec "=" "=") as [_|N]; [|congruence]. rewrite prefix_nil. reflexivity.
Qed.

Lemma split1_entry k v :
  all_chars (fun c => negb (Ascii.eqb c "=")) k = true ->
  Str.split1 "=" (k +:+ "=" +:+ v) = [k; v].
Proof.
  induction k as [|c k IH]; [reflexivity|].
  cbn [all_chars]. intros H. apply andb_true_iff in H as [Hc Hk].
  rewrite append_cons. cbn [Str.split1].
  apply negb_true_iff in Hc. rewrite Hc, (IH Hk). reflexivity.
Qed.

(** Wherever [=] occurs, [split("=", 1)] gives two pieces. *)
Lemma split1_two s :
  Str.contains "=" s = true -> exists k v, Str.split1 "=" s = [k; v].
Proof.
  induction s as [|c s IH]; [discriminate|].
  cbn [Str.contains Str.split1 String.prefix].
  destruct (Ascii.eqb c "=") eqn:E; [eauto|].
  destruct (ascii_dec "=" c) as [e|_];
    [subst c; rewrite Ascii.eqb_refl in E; discriminate|]. cbn [orb].
  intros H. destruct (IH H) as (k & v & ->). eauto.
Qed.

(* ------------------------------------------------------------------ *)
(** * Lines *)

Lemma splitlines_go_line line cur rest :
  no_linebreak line = true ->
  Str.splitlines_go false cur (line +:+ LF +:+ rest)
  = (cur +:+ line) :: Str.splitlines_go false EmptyString rest.
Proof.
  revert cur. induction line as [|c line IH]; intros cur H.
  - rewrite append_nil_r. reflexivity.
  - unfold no_linebreak in H. cbn [all_chars] in H.
    apply andb_true_iff in H as [Hc Hl]. apply negb_true_iff in Hc.
    rewrite append_cons. cbn [Str.splitlines_go].
    assert (E10 : Ascii.eqb c "010" = false).
    { destruct (Ascii.eqb_spec c "010") as [->|]; [discriminate Hc | reflexivity]. }
    assert (E13 : Ascii.eqb c "013" = false).
    { destruct (Ascii.eqb_spec c "013") as [->|]; [discriminate Hc | reflexivity]. }
    rewrite E10, E13, Hc, (IH _ Hl), append_assoc. reflexivity.
Qed.

Lemma join_unlines l lines : Str.join LF (l :: lines) +:+ LF = unlines (l :: lines).
Proof.
  revert l. induction lines as [|l' lines IH]; intros l.
  - reflexivity.
  - change (Str.join LF (l :: l' :: lines)) with (l +:+ LF +:+ Str.join LF (l' :: lines)).
    rewrite !append_assoc, IH. reflexivity.
Qed.

Lemma splitlines_unlines lines :
  forallb no_linebreak lines = true -> Str.splitlines (unlines lines) = lines.
Proof.
  unfold Str.splitlines. induction lines as [|l lines IH]; [reflexivity|].
  cbn [forallb unlines fold_right]. intros H. apply andb_true_iff in H as [Hl Hr].
  rewrite (splitlines_go_line _ _ _ Hl), append_nil_l. f_equal. apply IH, Hr.
Qed.

(* ------------------------------------------------------------------ *)
(** * The config store *)

Lemma read_config_line_entry d k v :
  storable (k, v) = true ->
  _read_config_line (Ok d) (k +:+ "=" +:+ v) = Ok (Dict.set k v d).
Proof.
  unfold storable. cbn [fst snd]. rewrite !andb_true_iff.
  intros [[[[[Hk Hv] _] _] Heq] Hhash].
  apply String.eqb_eq in Hk, Hv. apply negb_true_iff in Hhash.
  unfold _read_config_line.
  rewrite (strip_entry _ _ Hk Hv), (startswith_entry _ _ Hhash), contains_entry,
    (truthy_append k ("=" +:+ v) eq_refl), (split1_entry _ _ Heq), Hk, Hv.
  reflexivity.
Qed.

Lemma read_config_line_malformed r line :
  malformed line -> _read_config_line r line = r.
Proof.
  intros H. destruct r as [d|e]; [|reflexivity]. unfold _read_config_line.
  destruct H as [H|[H|H]].
  - rewrite H. reflexivity.
  - rewrite H, orb_true_r. reflexivity.
  - destruct (Str.truthy (Str.strip line)); [|reflexivity].
    destruct (Str.startswith "#" (Str.strip line)); [reflexivity|].
    destruct (Str.contains "=" (Str.strip line)) eqn:E; [|reflexivity].
    exfalso. revert E H. unfold Str.strip. clear.
    assert (L : forall s, Str.contains "=" (Str.lstrip s) = true -> Str.contains "=" s = true).
    { induction s as [|c s IH]; [auto|]. cbn [Str.lstrip].
      destruct (Str.is_space c); [|auto]. intros H. apply contains_cons, IH, H. }
    assert (R : forall s, Str.contains "=" (Str.rstrip s) = true -> Str.contains "=" s = true).
    { induction s as [|c s IH]; [auto|]. cbn [Str.rstrip].
      destruct (Str.is_space c && negb (Str.truthy (Str.rstrip s))); [discriminate|].
      cbn [Str.contains String.prefix].
      destruct (ascii_dec "=" c); [rewrite !prefix_nil; auto|].
      cbn [orb]. exact IH. }
    intros E H. apply L, R in E. congruence.
Qed.

Lemma read_config_line_total d line : exists d', _read_config_line (Ok d) line = Ok d'.
Proof.
  unfold _read_config_line.
  destruct (negb (Str.truthy (Str.strip line)) || Str.startswith "#" (Str.strip line)
            || negb (Str.contains "=" (Str.strip line))) eqn:E; [eauto|].
  apply orb_false_iff in E as [_ E]. apply negb_false_iff in E.
  destruct (split1_two _ E) as (k & v & ->). eauto.
Qed.

Lemma parse_lines_total lines r :
  (exists d, r = Ok d) -> exists d, List.fold_left _read_config_line lines r = Ok d.
Proof.
  revert r. induction lines as [|l lines IH]; intros r [d ->]; cbn [fold_left]; [eauto|].
  apply IH, read_config_line_total.
Qed.

Lemma dict_set_fresh k v d :
  ~ In k (Dict.keys d) -> Dict.set k v d = d ++ [(k, v)].
Proof.
  induction d as [|[k' v'] d IH]; cbn [Dict.set Dict.keys List.map fst In]; [reflexivity|].
  intros H. destruct (String.eqb_spec k k') as [->|_]; [tauto|].
  rewrite IH by tauto. reflexivity.
Qed.

Lemma parse_entries cfg d :
  forallb storable cfg = true ->
  List.NoDup (Dict.keys d ++ Dict.keys cfg) ->
  List.fold_left _read_config_line
    (List.map (fun kv => fst kv +:+ "=" +:+ snd kv) cfg) (Ok d)
  = Ok (d ++ cfg).
Proof.
  revert d. induction cfg as [|[k v] cfg IH]; intros d Hs Hn.
  - cbn. rewrite app_nil_r. reflexivity.
  - cbn [forallb] in Hs. apply andb_true_iff in Hs as [Hkv Hs].
    cbn [List.map fold_left fst snd]. rewrite (read_config_line_entry _ _ _ Hkv).
    cbn [Dict.keys List.map fst] in Hn.
    assert (Hfresh : ~ In k (Dict.keys d)).
    { apply NoDup_remove_2 in Hn. rewrite in_app_iff in Hn. tauto. }
    rewrite (dict_set_fresh _ _ _ Hfresh), IH; [rewrite <- app_assoc; reflexivity|exact Hs|].
    unfold Dict.keys in *. rewrite map_app. cbn [List.map fst].
    rewrite <- app_assoc. exact Hn.
Qed.

Lemma no_linebreak_entry kv :
  storable kv = true -> no_linebreak (fst kv +:+ "=" +:+ snd kv) = true.
Proof.
  unfold storable. rewrite !andb_true_iff. intros [[[[[_ _] Hk] Hv] _] _].
  unfold no_linebreak in *. rewrite !all_chars_append, Hk, Hv. reflexivity.
Qed.

Lemma parse_render a cfg :
  List.NoDup (Dict.keys cfg) -> forallb storable cfg = true ->
  parse_config (render_config a cfg) = Ok cfg.
Proof.
  intros Hn Hs. unfold parse_config, render_config.
  rewrite join_unlines, splitlines_unlines.
  - cbn [fold_left].
    replace (_read_config_line (Ok []) (config_header a)) with (Ok ([] : Dict.t))
      by (destruct a; reflexivity).
    apply (parse_entries cfg [] Hs Hn).
  - cbn [forallb]. apply andb_true_iff. split; [destruct a; reflexivity|].
    apply forallb_forall. intros line Hin. apply in_map_iff in Hin as (kv & <- & Hkv).
    apply no_linebreak_entry. rewrite forallb_forall in Hs. auto.
Qed.

Lemma config_path_stat h a fs :
  stat fs (CONFIG_PATH h a) = fs !! str (CONFIG_PATH h a).
Proof.
  unfold stat.
  assert (E : exists p, parts (CONFIG_PATH h a) = parts p ++ ["config.toml"]).
  { exists (home h // ".config" // APP_NAME a). reflexivity. }
  destruct E as [p ->]. destruct (parts p); reflexivity.
Qed.

Lemma write_config_stat h a cfg s s' :
  _write_config h a cfg s = (Ok tt, s') ->
  stat (st_fs s') (CONFIG_PATH h a) = Some (File (render_config a cfg)).
Proof.
  unfold _write_config, _ensure_config_dir, bind, with_fs, lift, set_fs, id. cbn [st_fs st_log].
  destruct (mkdir_parents (st_fs s) (parent (CONFIG_PATH h a))) as [fs1|e]; [|discriminate].
  cbn [st_fs st_log]. unfold write_text.
  destruct (match stat fs1 (CONFIG_PATH h a) with Some Dir => true | _ => false end) eqn:D.
  - destruct (stat fs1 (CONFIG_PATH h a)) as [[|]|]; discriminate.
  - assert (W : forall r : result fsmap,
               match stat fs1 (CONFIG_PATH h a) with
               | Some Dir => Raise (Exception (errno_msg "[Errno 21] Is a directory" (CONFIG_PATH h a)))
               | _ => r
               end = r).
    { intros r. destruct (stat fs1 (CONFIG_PATH h a)) as [[|]|]; [reflexivity|discriminate|reflexivity]. }
    rewrite W. destruct (is_dir fs1 (parent (CONFIG_PATH h a))); [|discriminate].
    intros [= <-]. cbn [st_fs]. rewrite config_path_stat. apply lookup_insert_eq.
Qed.

Lemma read_config_file h a s text :
  stat (st_fs s) (CONFIG_PATH h a) = Some (File text) ->
  _read_config h a s = (parse_config text, s).
Proof.
  intros H. unfold _read_config. rewrite bind_with_fs. unfold exists_ at 1.
  rewrite H. cbn [negb]. rewrite bind_with_fs. unfold id.
  rewrite (bind_ok _ _ s text s) by (unfold lift, read_text; rewrite H; reflexivity).
  reflexivity.
Qed.

Lemma read_config_absent h a s :
  exists_ (st_fs s) (CONFIG_PATH h a) = false -> _read_config h a s = (Ok [], s).
Proof.
  intros H. unfold _read_config. rewrite bind_with_fs, H. reflexivity.
Qed.

Lemma parse_lines_skip before bad after :
  malformed bad -> parse_lines (before ++ bad :: after) = parse_lines (before ++ after).
Proof.
  intros H. unfold parse_lines. rewrite !fold_left_app. cbn [fold_left].
  rewrite (read_config_line_malformed _ _ H). reflexivity.
Qed.



(** A file with malformed lines between the entries reads as the
    entries alone. *)
Example read_config_with_noise :
  parse_config ("lat=41.0082" +:+ LF +:+ "this line is noise" +:+ LF +:+ LF
                +:+ "  # a comment" +:+ LF +:+ " lon = 28.9784 " +:+ LF)
  = Ok istanbul.
Proof. vm_compute. reflexivity. Qed.

(* ------------------------------------------------------------------ *)
(** * Checks of the text and path helpers on concrete inputs *)

Example strip_night : Str.lower (Str.strip (String "N" (String "I" (String "G"
  (String "H" (String "T" (String "010" EmptyString))))))) = "night".
Proof. reflexivity. Qed.

Example splitlines_crlf :
  Str.splitlines (String "a" (String "013" (String "010" (String "010" (String "b"
    (String "010" EmptyString)))))) = ["a"; ""; "b"].
Proof. reflexivity. Qed.

Example split1_second_eq : Str.split1 "=" "k=v=w" = ["k"; "v=w"].
Proof. reflexivity. Qed.

Example path_parse : str (Path_of "/opt//homebrew/./share/") = "/opt/homebrew/share".
Proof. reflexivity. Qed.

Example path_empty : str (Path_of EmptyString) = ".".
Proof. reflexivity. Qed.

Example path_join_empty_prefix :
  str (Path_of EmptyString // "share" // "riset" // "scripts") = "share/riset/scripts".
Proof. reflexivity. Qed.


(* ================================================================== *)
(** * Further properties of the config store *)

Lemma lstrip_idem s : Str.lstrip (Str.lstrip s) = Str.lstrip s.
Proof.
  induction s as [|c s IH]; [reflexivity|]. cbn [Str.lstrip].
  destruct (Str.is_space c) eqn:E; [exact IH|]. cbn [Str.lstrip]. rewrite E. reflexivity.
Qed.

Lemma rstrip_idem s : Str.rstrip (Str.rstrip s) = Str.rstrip s.
Proof.
  induction s as [|c s IH]; [reflexivity|]. cbn [Str.rstrip].
  destruct (Str.is_space c && negb (Str.truthy (Str.rstrip s))) eqn:E; [reflexivity|].
  cbn [Str.rstrip]. rewrite IH, E. reflexivity.
Qed.

Lemma rstrip_lstrip t : Str.rstrip t = t -> Str.rstrip (Str.lstrip t) = Str.lstrip t.
Proof.
  induction t as [|c t IH]; [reflexivity|]. intros H. cbn [Str.lstrip].
  destruct (Str.is_space c); [|exact H].
  apply IH. cbn [Str.rstrip] in H.
  destruct (Str.is_space c && negb (Str.truthy (Str.rstrip t))); [discriminate|].
  congruence.
Qed.

Lemma strip_idem s : Str.strip (Str.strip s) = Str.strip s.
Proof.
  unfold Str.strip. rewrite (rstrip_lstrip _ (rstrip_idem s)). apply lstrip_idem.
Qed.

Lemma lstrip_strip s : Str.lstrip (Str.strip s) = Str.strip s.
Proof. unfold Str.strip. apply lstrip_idem. Qed.

Lemma all_chars_lstrip f s : all_chars f s = true -> all_chars f (Str.lstrip s) = true.
Proof.
  induction s as [|c s IH]; [auto|]. cbn [Str.lstrip all_chars]. intros H.
  apply andb_true_iff in H as [Hc Hs].
  destruct (Str.is_space c); [auto|]. cbn [all_chars]. rewrite Hc, Hs. reflexivity.
Qed.

Lemma all_chars_rstrip f s : all_chars f s = true -> all_chars f (Str.rstrip s) = true.
Proof.
  induction s as [|c s IH]; [auto|]. cbn [Str.rstrip all_chars]. intros H.
  apply andb_true_iff in H as [Hc Hs].
  destruct (Str.is_space c && negb (Str.truthy (Str.rstrip s))); [reflexivity|].
  cbn [all_chars]. rewrite Hc, (IH Hs). reflexivity.
Qed.

Lemma all_chars_strip f s : all_chars f s = true -> all_chars f (Str.strip s) = true.
Proof. intros H. unfold Str.strip. apply all_chars_lstrip, all_chars_rstrip, H. Qed.

(** The two pieces of [split("=", 1)] rebuild the line, and the first
    holds no separator. *)
Lemma split1_pieces sep s k v :
  Str.split1 sep s = [k; v] ->
  s = k +:+ String sep v /\ all_chars (fun c => negb (Ascii.eqb c sep)) k = true.
Proof.
  revert k. induction s as [|c s IH]; intros k; [discriminate|]. cbn [Str.split1].
  destruct (Ascii.eqb_spec c sep) as [->|Hne].
  - intros [= <- <-]. split; reflexivity.
  - destruct (Str.split1 sep s) as [|k' [|v' [|]]] eqn:E; try discriminate.
    intros [= <- <-]. destruct (IH k' eq_refl) as [-> Hk].
    split; [reflexivity|]. cbn [all_chars]. rewrite Hk, andb_true_r.
    apply negb_true_iff, Ascii.eqb_neq, Hne.
Qed.

Lemma splitlines_go_no_linebreak after_cr cur s :
  no_linebreak cur = true ->
  forallb no_linebreak (Str.splitlines_go after_cr cur s) = true.
Proof.
  revert after_cr cur. induction s as [|c s IH]; intros after_cr cur Hcur.
  - cbn [Str.splitlines_go]. destruct (Str.truthy cur); cbn; rewrite ?Hcur; reflexivity.
  - cbn [Str.splitlines_go].
    destruct (Ascii.eqb c "010"); [destruct after_cr|destruct (Ascii.eqb c "013");
      [|destruct (Str.is_linebreak c) eqn:E]];
      cbn [forallb]; rewrite ?Hcur; cbn [andb]; try (apply IH; first [exact Hcur|reflexivity]).
    apply IH. unfold no_linebreak in *. rewrite all_chars_append, Hcur. cbn. rewrite E. reflexivity.
Qed.

Lemma dict_set_keys_in k v d x :
  In x (Dict.keys (Dict.set k v d)) <-> x = k \/ In x (Dict.keys d).
Proof.
  unfold Dict.keys. induction d as [|[k' v'] d IH]; cbn [Dict.set List.map fst In].
  - intuition congruence.
  - destruct (String.eqb_spec k k') as [->|_]; cbn [List.map fst In]; [|rewrite IH];
      intuition congruence.
Qed.

Lemma dict_set_nodup k v d :
  List.NoDup (Dict.keys d) -> List.NoDup (Dict.keys (Dict.set k v d)).
Proof.
  induction d as [|[k' v'] d IH]; intros H.
  - repeat constructor. intros [].
  - cbn [Dict.set]. destruct (String.eqb_spec k k') as [->|Hne]; [exact H|].
    unfold Dict.keys in *. cbn [List.map fst] in *.
    apply NoDup_cons_iff in H as [Hk' Hd]. constructor; [|apply IH, Hd].
    intros Hin. apply (dict_set_keys_in k v d k') in Hin as [->|Hin]; tauto.
Qed.

Lemma dict_set_storable k v d :
  storable (k, v) = true -> forallb storable d = true ->
  forallb storable (Dict.set k v d) = true.
Proof.
  intros Hkv. induction d as [|[k' v'] d IH]; cbn [Dict.set forallb].
  - intros _. rewrite Hkv. reflexivity.
  - intros H. apply andb_true_iff in H as [H1 H2].
    destruct (String.eqb k k'); cbn [forallb]; rewrite ?Hkv, ?H1, ?H2, ?IH; auto.
Qed.

Lemma dict_get_set k v d : Dict.get k (Dict.set k v d) = Some v.
Proof.
  induction d as [|[k' v'] d IH]; cbn [Dict.set Dict.get].
  - rewrite String.eqb_refl. reflexivity.
  - destruct (String.eqb k k') eqn:E; cbn [Dict.get]; rewrite ?String.eqb_refl, ?E; auto.
Qed.

Lemma dict_get_set_other k v d k' :
  k' <> k -> Dict.get k' (Dict.set k v d) = Dict.get k' d.
Proof.
  intros Hne. induction d as [|[k0 v0] d IH]; cbn [Dict.set Dict.get].
  - apply String.eqb_neq in Hne. rewrite Hne. reflexivity.
  - destruct (String.eqb_spec k k0) as [->|_]; cbn [Dict.get].
    + apply String.eqb_neq in Hne. rewrite Hne. reflexivity.
    + rewrite IH. reflexivity.
Qed.

(** The key of an entry line never starts with [#]: the line itself
    does not, and it starts with a character that is no white space. *)
Lemma key_not_comment line k v :
  Str.lstrip line = line -> Str.startswith "#" line = false ->
  line = k +:+ String "=" v ->
  Str.startswith "#" (Str.strip k) = false.
Proof.
  intros Hl Hh ->. destruct k as [|c k]; [reflexivity|].
  rewrite append_cons in Hl, Hh. apply lstrip_fixed_head in Hl.
  unfold Str.startswith in *. cbn [String.prefix] in Hh.
  unfold Str.strip. cbn [Str.rstrip]. rewrite Hl. cbn [andb Str.lstrip]. rewrite Hl.
  cbn [String.prefix]. destruct (ascii_dec "#" c); [|reflexivity].
  rewrite prefix_nil in Hh. discriminate.
Qed.

(** What [_read_config] keeps of a mapping: distinct keys, entries that
    survive the line format. *)
Lemma read_config_line_keeps d line d' :
  no_linebreak line = true ->
  List.NoDup (Dict.keys d) -> forallb storable d = true ->
  _read_config_line (Ok d) line = Ok d' ->
  List.NoDup (Dict.keys d') /\ forallb storable d' = true.
Proof.
  intros Hnl Hn Hs. unfold _read_config_line.
  destruct (negb (Str.truthy (Str.strip line))) eqn:E1; cbn [orb]; [intros [= <-]; auto|].
  destruct (Str.startswith "#" (Str.strip line)) eqn:E2; cbn [orb]; [intros [= <-]; auto|].
  destruct (negb (Str.contains "=" (Str.strip line))) eqn:E3; [intros [= <-]; auto|].
  destruct (Str.split1 "=" (Str.strip line)) as [|k [|v [|]]] eqn:E; try discriminate.
  intros [= <-]. destruct (split1_pieces _ _ _ _ E) as [Hline Hk].
  split; [apply dict_set_nodup, Hn|]. apply dict_set_storable; [|exact Hs].
  assert (Hnl' : no_linebreak (k +:+ String "=" v) = true).
  { rewrite <- Hline. apply all_chars_strip, Hnl. }
  unfold no_linebreak in Hnl'. rewrite all_chars_append in Hnl'.
  apply andb_true_iff in Hnl' as [Hnk Hnv]. cbn [all_chars] in Hnv.
  apply andb_true_iff in Hnv as [_ Hnv].
  unfold storable, no_linebreak. cbn [fst snd].
  rewrite !strip_idem, !String.eqb_refl, !all_chars_strip by assumption.
  rewrite (key_not_comment _ _ _ (lstrip_strip line) E2 Hline). reflexivity.
Qed.

Lemma parse_lines_keeps lines d d' :
  forallb no_linebreak lines = true ->
  List.NoDup (Dict.keys d) -> forallb storable d = true ->
  List.fold_left _read_config_line lines (Ok d) = Ok d' ->
  List.NoDup (Dict.keys d') /\ forallb storable d' = true.
Proof.
  revert d. induction lines as [|l lines IH]; intros d Hl Hn Hs; cbn [fold_left].
  - intros [= <-]. auto.
  - cbn [forallb] in Hl. apply andb_true_iff in Hl as [Hl1 Hl2].
    destruct (read_config_line_total d l) as [d1 H1]. rewrite H1.
    destruct (read_config_line_keeps _ _ _ Hl1 Hn Hs H1) as [Hn1 Hs1].
    apply IH; assumption.
Qed.

Lemma parse_config_keeps text cfg :
  parse_config text = Ok cfg ->
  List.NoDup (Dict.keys cfg) /\ forallb storable cfg = true.
Proof.
  unfold parse_config. apply parse_lines_keeps; [|constructor|reflexivity].
  apply splitlines_go_no_linebreak. reflexivity.
Qed.

(* ================================================================== *)
(** * Directories *)

Lemma length_append a b : String.length (a +:+ b) = (String.length a + String.length b)%nat.
Proof.
  induction a as [|c a IH]; [reflexivity|]. rewrite append_cons. cbn [String.length].
  rewrite IH. reflexivity.
Qed.

Lemma join_cons2 sep x y l :
  Str.join sep (x :: y :: l) = x +:+ sep +:+ Str.join sep (y :: l).
Proof. reflexivity. Qed.

(** A path text grows with every component added. *)
Lemma join_length_app sep l l' :
  l <> [] -> l' <> [] ->
  String.length (Str.join sep (l ++ l'))
  = (String.length (Str.join sep l) + String.length sep + String.length (Str.join sep l'))%nat.
Proof.
  intros Hl Hl'. induction l as [|x [|y l] IH]; [congruence| |].
  - destruct l' as [|z l']; [congruence|].
    cbn [List.app]. rewrite join_cons2, !length_append.
    change (Str.join sep [x]) with x. lia.
  - cbn [List.app] in *. rewrite !join_cons2, !length_append, IH by discriminate.
    rewrite ?length_append. lia.
Qed.

Lemma str_proper_prefix_ne (b : bool) (l l' : list string) :
  l <> [] -> l' <> [] ->
  str {| is_absolute := b; parts := l |} <> str {| is_absolute := b; parts := l ++ l' |}.
Proof.
  intros Hl Hl' E. apply (f_equal String.length) in E. unfold str in E. cbn [is_absolute parts] in E.
  pose proof (join_length_app "/" l l' Hl Hl') as J. cbn [String.length] in J.
  destruct b.
  - rewrite !length_append in E. lia.
  - destruct l as [|x l]; [congruence|]. cbn [List.app] in *. lia.
Qed.

Lemma stat_lookup fs p : parts p <> [] -> stat fs p = fs !! str p.
Proof. unfold stat. destruct (parts p); [congruence|reflexivity]. Qed.

Lemma mkdir_step_frame acc d fs1 :
  mkdir_step acc d = Ok fs1 ->
  exists fs0, acc = Ok fs0
    /\ (forall k, k <> str d -> fs1 !! k = fs0 !! k)
    /\ (forall k n, fs0 !! k = Some n -> fs1 !! k = Some n)
    /\ is_dir fs1 d = true.
Proof.
  unfold mkdir_step. destruct acc as [fs0|e]; [|discriminate].
  intros H. exists fs0. split; [reflexivity|]. unfold is_dir.
  destruct (stat fs0 d) as [[t|]|] eqn:E; [discriminate| |]; injection H as <-.
  - rewrite E. auto.
  - unfold stat in *. destruct (parts d) eqn:P; [discriminate|].
    split; [intros k Hk; apply lookup_insert_ne; congruence|].
    split; [intros k n Hk; rewrite lookup_insert_ne; [exact Hk|congruence]|].
    rewrite lookup_insert_eq. reflexivity.
Qed.

Lemma mkdir_fold_frame ds fs fs1 :
  List.fold_left mkdir_step ds (Ok fs) = Ok fs1 ->
  (forall k, (forall d, In d ds -> k <> str d) -> fs1 !! k = fs !! k)
  /\ (forall k n, fs !! k = Some n -> fs1 !! k = Some n).
Proof.
  revert fs1. induction ds as [|d ds IH] using rev_ind; intros fs1.
  - cbn. intros [= <-]. auto.
  - rewrite fold_left_app. cbn [fold_left]. intros H.
    destruct (mkdir_step_frame _ _ _ H) as (fs0 & E & F1 & F2 & _).
    destruct (IH fs0 E) as [G1 G2]. split.
    + intros k Hk. rewrite F1 by (apply Hk, in_app_iff; right; left; reflexivity).
      apply G1. intros d' Hd'. apply Hk, in_app_iff. auto.
    + intros k n Hk. apply F2, G2, Hk.
Qed.

(** After [mkdir(parents=True, exist_ok=True)] the path is a directory,
    what was there is still there, and nothing outside the path's own
    lineage was touched. *)
Lemma mkdir_parents_spec fs p fs1 :
  mkdir_parents fs p = Ok fs1 ->
  is_dir fs1 p = true
  /\ (forall k n, fs !! k = Some n -> fs1 !! k = Some n)
  /\ (forall k, (forall d, In d (lineage p) -> k <> str d) -> fs1 !! k = fs !! k).
Proof.
  unfold mkdir_parents. intros H.
  destruct (mkdir_fold_frame _ _ _ H) as [G1 G2]. split; [|auto].
  destruct p as [b l]. unfold lineage in H. cbn [is_absolute parts] in H.
  destruct (length l) as [|m] eqn:L.
  - destruct l; [reflexivity|discriminate].
  - rewrite seq_S, map_app, fold_left_app in H. cbn [List.map fold_left] in H.
    change (1 + m)%nat with (S m) in H. rewrite <- L, firstn_all in H.
    apply mkdir_step_frame in H as (_ & _ & _ & _ & D). exact D.
Qed.

(* ================================================================== *)
(** * Reading, writing and updating the config *)

Lemma joinpath_relative p s l :
  Path_of s = {| is_absolute := false; parts := l |} ->
  p // s = {| is_absolute := is_absolute p; parts := parts p ++ l |}.
Proof. unfold joinpath. intros ->. reflexivity. Qed.

Lemma config_path_parts h a :
  CONFIG_PATH h a
  = {| is_absolute := is_absolute (home h);
       parts := (parts (home h) ++ [".config"; APP_NAME a]) ++ ["config.toml"] |}
  /\ parent (CONFIG_PATH h a)
     = {| is_absolute := is_absolute (home h);
          parts := parts (home h) ++ [".config"; APP_NAME a] |}.
Proof.
  assert (E : CONFIG_PATH h a
              = {| is_absolute := is_absolute (home h);
                   parts := (parts (home h) ++ [".config"; APP_NAME a]) ++ ["config.toml"] |}).
  { unfold CONFIG_PATH.
    rewrite (joinpath_relative (home h) ".config" [".config"] eq_refl).
    rewrite (joinpath_relative _ (APP_NAME a) [APP_NAME a]) by (destruct a; reflexivity).
    rewrite (joinpath_relative _ "config.toml" ["config.toml"] eq_refl).
    cbn [is_absolute parts]. rewrite <- (app_assoc (parts (home h))). reflexivity. }
  split; [exact E|]. rewrite E. unfold parent. cbn [is_absolute parts].
  rewrite removelast_last. reflexivity.
Qed.

Lemma config_path_outside_lineage h a d :
  In d (lineage (parent (CONFIG_PATH h a))) -> str (CONFIG_PATH h a) <> str d.
Proof.
  destruct (config_path_parts h a) as (-> & ->).
  set (pp := parts (home h) ++ [".config"; APP_NAME a]).
  unfold lineage. cbn [is_absolute parts]. intros Hin.
  apply in_map_iff in Hin as (n & <- & Hn). apply in_seq in Hn.
  rewrite <- (firstn_skipn n pp) at 1. rewrite <- app_assoc.
  intros E. symmetry in E. revert E. apply str_proper_prefix_ne.
  - assert (Hpp : pp <> []) by (subst pp; destruct (parts (home h)); discriminate).
    destruct pp as [|x pp']; [congruence|]. destruct n; [lia|discriminate].
  - destruct (skipn n pp); discriminate.
Qed.

Lemma read_config_ok h a s cfg :
  fst (_read_config h a s) = Ok cfg ->
  _read_config h a s = (Ok cfg, s)
  /\ stat (st_fs s) (CONFIG_PATH h a) <> Some Dir
  /\ List.NoDup (Dict.keys cfg) /\ forallb storable cfg = true.
Proof.
  intros H.
  split; [rewrite (surjective_pairing (_read_config h a s)), H, read_config_state; reflexivity|].
  revert H. unfold _read_config. rewrite bind_with_fs. unfold exists_ at 1.
  destruct (stat (st_fs s) (CONFIG_PATH h a)) as [[text|]|] eqn:E; cbn [negb].
  - rewrite bind_with_fs. unfold id.
    rewrite (bind_ok _ _ s text s) by (unfold lift, read_text; rewrite E; reflexivity).
    unfold lift. cbn [fst]. intros H. split; [discriminate|]. exact (parse_config_keeps _ _ H).
  - rewrite bind_with_fs. unfold id.
    rewrite (bind_raise _ _ s _ s) by (unfold lift, read_text; rewrite E; reflexivity).
    discriminate.
  - unfold ret. cbn [fst]. intros [= <-]. split; [discriminate|]. split; [constructor|reflexivity].
Qed.

Lemma write_config_ok h a cfg s fs1 :
  mkdir_parents (st_fs s) (parent (CONFIG_PATH h a)) = Ok fs1 ->
  stat (st_fs s) (CONFIG_PATH h a) <> Some Dir ->
  _write_config h a cfg s
  = (Ok tt, {| st_fs := <[str (CONFIG_PATH h a) := File (render_config a cfg)]> fs1;
               st_log := st_log s |}).
Proof.
  intros Hm Hnd. destruct (mkdir_parents_spec _ _ _ Hm) as (Hdir & _ & Hframe).
  unfold _write_config, _ensure_config_dir, bind, with_fs, lift, set_fs, id. cbn [st_fs st_log].
  rewrite Hm. cbn [st_fs st_log]. unfold write_text. rewrite Hdir.
  assert (E : stat fs1 (CONFIG_PATH h a) = stat (st_fs s) (CONFIG_PATH h a)).
  { rewrite !config_path_stat. apply Hframe. intros d. apply config_path_outside_lineage. }
  rewrite E. destruct (stat (st_fs s) (CONFIG_PATH h a)) as [[t|]|]; congruence.
Qed.

(** X1.  Whatever [_read_config] returns from a config file has distinct
    keys, and writing it back and reading again returns the same
    mapping: stored entries are never lost or altered by a rewrite. *)
Theorem read_config_survives_rewrite (h : host) (a : program) (s s1 s2 : state) (text : string) :
  stat (st_fs s) (CONFIG_PATH h a) = Some (File text) ->
  exists cfg,
    _read_config h a s = (Ok cfg, s)
    /\ List.NoDup (Dict.keys cfg)
    /\ parse_config (render_config a cfg) = Ok cfg
    /\ (_write_config h a cfg s1 = (Ok tt, s2) -> _read_config h a s2 = (Ok cfg, s2)).
Proof.
  intros Hst. destruct (parse_lines_total (Str.splitlines text) (Ok []) (ex_intro _ [] eq_refl))
    as [cfg Hcfg].
  exists cfg. destruct (parse_config_keeps text cfg Hcfg) as [Hn Hs].
  split; [rewrite (read_config_file _ _ _ _ Hst); unfold parse_config; rewrite Hcfg; reflexivity|].
  split; [exact Hn|]. split; [exact (parse_render a cfg Hn Hs)|].
  intros Hw. rewrite (read_config_file _ _ _ _ (write_config_stat _ _ _ _ _ Hw)).
  rewrite (parse_render a cfg Hn Hs). reflexivity.
Qed.

Lemma read_config_survives_rewrite_witness :
  exists cfg,
    _read_config host_bare Riset (fresh fs_config_zone) = (Ok cfg, fresh fs_config_zone)
    /\ List.NoDup (Dict.keys cfg)
    /\ parse_config (render_config Riset cfg) = Ok cfg
    /\ (_write_config host_bare Riset cfg (fresh ∅)
        = (Ok tt, snd (_write_config host_bare Riset cfg (fresh ∅))) ->
        _read_config host_bare Riset (snd (_write_config host_bare Riset cfg (fresh ∅)))
        = (Ok cfg, snd (_write_config host_bare Riset cfg (fresh ∅)))).
Proof.
  destruct (read_config_survives_rewrite host_bare Riset (fresh fs_config_zone) (fresh ∅)
              (snd (_write_config host_bare Riset
                      [("lat", "41.0082"); ("zone", "Europe/Istanbul"); ("lon", "28.9784")]
                      (fresh ∅)))
              config_text_zone) as (cfg & Hr & Hn & Hp & Hw); [vm_compute; reflexivity|].
  assert (E : cfg = [("lat", "41.0082"); ("zone", "Europe/Istanbul"); ("lon", "28.9784")]).
  { assert (Hc : _read_config host_bare Riset (fresh fs_config_zone)
                 = (Ok [("lat", "41.0082"); ("zone", "Europe/Istanbul"); ("lon", "28.9784")],
                    fresh fs_config_zone)) by (vm_compute; reflexivity).
    rewrite Hc in Hr. congruence. }
  exists cfg. subst cfg. auto.
Defined.



(** X3.  location_change stores the new coordinates and keeps every
    other stored entry: when the config can be read and its directory
    created, the command returns 0, prints two lines, and a following read
    returns the old mapping with lat and lon set to the new values. *)
Theorem location_change_updates_config
    (h : host) (a : program) (lat lon : string) (s : state) (cfg0 : Dict.t) (fs1 : fsmap) :
  fst (_read_config h a s) = Ok cfg0 ->
  mkdir_parents (st_fs s) (parent (CONFIG_PATH h a)) = Ok fs1 ->
  storable ("lat", lat) = true -> storable ("lon", lon) = true ->
  let cfg := Dict.set "lon" lon (Dict.set "lat" lat cfg0) in
  let s' := {| st_fs := <[str (CONFIG_PATH h a) := File (render_config a cfg)]> fs1;
               st_log := st_log s
                         ++ [EvStdout ("✅ Location updated: lat=" +:+ lat +:+ " lon=" +:+ lon);
                             EvStdout ("🗂  Config file: " +:+ str (CONFIG_PATH h a))] |} in
  main h a (Location_change lat lon) s = (0, s')
  /\ _read_config h a s' = (Ok cfg, s')
  /\ Dict.get "lat" cfg = Some lat
  /\ Dict.get "lon" cfg = Some lon
  /\ forall k, k <> "lat" -> k <> "lon" -> Dict.get k cfg = Dict.get k cfg0.
Proof.
  intros Hr Hm Hlat Hlon cfg s'.
  destruct (read_config_ok _ _ _ _ Hr) as (Hread & Hnd & Hn & Hs).
  split.
  - unfold main. cbn [func]. unfold cmd_location_change.
    rewrite (bind_ok _ _ _ _ _ Hread).
    rewrite (bind_ok _ _ _ _ _ (write_config_ok h a cfg s fs1 Hm Hnd)).
    unfold bind, print, log, ret. cbn [catch st_fs st_log]. subst s'.
    rewrite <- app_assoc. reflexivity.
  - split.
    + assert (Hst : stat (st_fs s') (CONFIG_PATH h a) = Some (File (render_config a cfg))).
      { subst s'. cbn [st_fs]. rewrite config_path_stat. apply lookup_insert_eq. }
      rewrite (read_config_file _ _ _ _ Hst), parse_render; [reflexivity| |].
      * subst cfg. apply dict_set_nodup, dict_set_nodup, Hn.
      * subst cfg. apply dict_set_storable; [exact Hlon|].
        apply dict_set_storable; [exact Hlat|exact Hs].
    + subst cfg. split; [|split; [apply dict_get_set|]].
      * rewrite dict_get_set_other by discriminate. apply dict_get_set.
      * intros k H1 H2. rewrite !dict_get_set_other by assumption. reflexivity.
Qed.

Lemma location_change_updates_config_witness :
  fst (main host_bare Riset (Location_change "41.01" "28.98") (fresh fs_config_zone)) = 0
  /\ fst (_read_config host_bare Riset
            (snd (main host_bare Riset (Location_change "41.01" "28.98") (fresh fs_config_zone))))
     = Ok [("lat", "41.01"); ("zone", "Europe/Istanbul"); ("lon", "28.98")].
Proof.
  destruct (location_change_updates_config host_bare Riset "41.01" "28.98"
              (fresh fs_config_zone)
              [("lat", "41.0082"); ("zone", "Europe/Istanbul"); ("lon", "28.9784")]
              (<[ "/Users/dev/.config" := Dir ]>
                 (<[ "/Users/dev" := Dir ]> (<[ "/Users" := Dir ]> fs_config_zone))))
    as (Hmain & Hread & _); [vm_compute; reflexivity ..|].
  rewrite Hmain. cbn [fst snd]. rewrite Hread. split; reflexivity.
Defined.

(* ================================================================== *)
(** * The per-mode commands *)

Lemma run_or_die_fail h cmd s res fs' :
  spawn h cmd None (st_fs s) = (Ok res, fs') -> returncode res <> 0 ->
  _run_or_die h cmd s
  = (Raise (SystemExit (returncode res)),
     {| st_fs := fs';
        st_log := st_log s
                  ++ [EvSpawn cmd None (Ok res);
                      EvStderr (Str.or_else (Str.strip (stderr res))
                                  (Str.or_else (Str.strip (stdout res))
                                     ("Command failed: " +:+ Str.join " " cmd)))] |}).
Proof.
  intros Hs Hne. rewrite run_or_die_eq, Hs. cbn [fst snd].
  apply Z.eqb_neq in Hne. rewrite Hne, <- app_assoc. reflexivity.
Qed.

Lemma run_or_die_cannot_start h cmd s e fs' :
  spawn h cmd None (st_fs s) = (Raise e, fs') ->
  _run_or_die h cmd s
  = (Raise e, {| st_fs := fs'; st_log := st_log s ++ [EvSpawn cmd None (Raise e)] |}).
Proof. intros Hs. rewrite run_or_die_eq, Hs. reflexivity. Qed.

Lemma scripts_dir_cases h a s :
  (exists e, _scripts_dir h a s = (Raise e, s))
  \/ (exists sdir, _find_dir h a (st_fs s) "scripts" = Ok (Some sdir)
                   /\ _scripts_dir h a s = (Ok sdir, s)).
Proof.
  destruct (_find_dir h a (st_fs s) "scripts") as [[sdir|]|e] eqn:E.
  - right. exists sdir. split; [reflexivity | apply scripts_dir_some, E].
  - left. eexists. apply scripts_dir_none, E.
  - left. exists e. unfold _scripts_dir. apply bind_raise. unfold find_dir. rewrite E. reflexivity.
Qed.

Lemma cmd_morning_run h s sdir :
  _find_dir h Riset (st_fs s) "scripts" = Ok (Some sdir) ->
  cmd_morning h s
  = run_script h (sdir // "wallpaper_morning.sh") "🌅 Morning wallpaper applied." s.
Proof.
  intros Hd. unfold cmd_morning, run_script.
  rewrite (bind_ok _ _ _ _ _ (scripts_dir_some _ _ _ _ Hd)), bind_with_fs.
  destruct (exists_ (st_fs s) (sdir // "wallpaper_morning.sh")); cbn [negb]; [|reflexivity].
  unfold bind at 1. destruct (_run_or_die h _ s) as [[out|e] s']; reflexivity.
Qed.

Lemma cmd_evening_run h s sdir :
  _find_dir h Riset (st_fs s) "scripts" = Ok (Some sdir) ->
  cmd_evening h s
  = run_script h (sdir // "wallpaper_evening.sh") "🌇 Evening wallpaper applied." s.
Proof.
  intros Hd. unfold cmd_evening, run_script.
  rewrite (bind_ok _ _ _ _ _ (scripts_dir_some _ _ _ _ Hd)), bind_with_fs.
  destruct (exists_ (st_fs s) (sdir // "wallpaper_evening.sh")); cbn [negb]; [|reflexivity].
  unfold bind at 1. destruct (_run_or_die h _ s) as [[out|e] s']; reflexivity.
Qed.

Lemma background_explicit_run h a s sdir mode script :
  _find_dir h a (st_fs s) "scripts" = Ok (Some sdir) ->
  (mode = "day" /\ script = sdir // "wallpaper_morning.sh")
  \/ (mode = "night" /\ script = sdir // "wallpaper_evening.sh") ->
  func h a (Background_change mode) s
  = run_script h script ("🖼️  Wallpaper set: " +:+ mode) s.
Proof.
  intros Hd Hsel. destruct (mode_script_cases sdir mode script Hsel) as [Hm _].
  assert (Hauto : String.eqb mode "auto" = false) by (destruct Hsel as [[-> _]|[-> _]]; reflexivity).
  destruct a; cbn [func]; unfold cmd_background_change;
    rewrite (bind_ok _ _ _ _ _ (scripts_dir_some _ _ _ _ Hd)), Hauto;
    apply apply_mode_script, Hm.
Qed.

Lemma observed_run_script h script done1 done2 s :
  observed (catch (run_script h script done1 s))
  = observed (catch (run_script h script done2 s)).
Proof.
  unfold run_script. destruct (exists_ (st_fs s) script); [|reflexivity].
  destruct (_run_or_die h [str script] s) as [[out|e] s']; [|reflexivity].
  unfold observed. cbn [catch fst snd st_fs st_log].
  rewrite !spawns_app, !stderr_lines_app. reflexivity.
Qed.

Lemma observed_raise {A} (m1 m2 : M A) (k1 : A -> M Z) (k2 : A -> M Z) s e :
  m1 s = (Raise e, s) -> m2 s = (Raise e, s) ->
  observed (catch (bind m1 k1 s)) = observed (catch (bind m2 k2 s)).
Proof. intros H1 H2. rewrite (bind_raise _ _ _ _ _ H1), (bind_raise _ _ _ _ _ H2). reflexivity. Qed.

(** X4.  morning is background_change --mode day, and evening is
    background_change --mode night, in everything but the confirmation
    line: the same exit code, the same processes started, the same file
    system left and the same diagnostics, whatever the host does. *)
Theorem morning_evening_are_day_night (h : host) (s : state) :
  observed (main h Riset Morning s) = observed (main h Riset (Background_change "day") s)
  /\ observed (main h Riset Evening s) = observed (main h Riset (Background_change "night") s).
Proof.
  unfold main. destruct (scripts_dir_cases h Riset s) as [[e He]|(sdir & Hd & _)].
  - cbn [func]. unfold cmd_morning, cmd_evening, cmd_background_change.
    split; apply (observed_raise _ _ _ _ s e He He).
  - split.
    + rewrite (background_explicit_run h Riset s sdir "day" _ Hd (or_introl (conj eq_refl eq_refl))).
      cbn [func]. rewrite (cmd_morning_run h s sdir Hd). apply observed_run_script.
    + rewrite (background_explicit_run h Riset s sdir "night" _ Hd (or_intror (conj eq_refl eq_refl))).
      cbn [func]. rewrite (cmd_evening_run h s sdir Hd). apply observed_run_script.
Qed.

(** X5.  background_change with an explicit mode never consults the
    auto delegates.  If the per-mode script is missing the command prints
    a diagnostic and returns 2 without starting anything; otherwise that
    script is the one process started, and when it exits zero the command
    confirms the mode and returns 0. *)
Theorem explicit_mode_runs_its_script_alone
    (h : host) (a : program) (s : state) (sdir script : Path) (mode : string) :
  _find_dir h a (st_fs s) "scripts" = Ok (Some sdir) ->
  (mode = "day" /\ script = sdir // "wallpaper_morning.sh")
  \/ (mode = "night" /\ script = sdir // "wallpaper_evening.sh") ->
  let run := main h a (Background_change mode) s in
  (exists_ (st_fs s) script = false ->
     run = (2, {| st_fs := st_fs s;
                  st_log := st_log s
                            ++ [EvStderr ("Expected script not found: " +:+ str script)] |}))
  /\ (exists_ (st_fs s) script = true ->
        spawned (st_log (snd run)) = spawned (st_log s) ++ [[str script]]
        /\ forall res fs1,
             spawn h [str script] None (st_fs s) = (Ok res, fs1) -> returncode res = 0 ->
             run = (0, {| st_fs := fs1;
                          st_log := st_log s
                                    ++ [EvSpawn [str script] None (Ok res);
                                        EvStdout ("🖼️  Wallpaper set: " +:+ mode)] |})).
Proof.
  intros Hd Hsel run. subst run. unfold main.
  rewrite (background_explicit_run h a s sdir mode script Hd Hsel). unfold run_script.
  split; intros Hex; rewrite Hex; [reflexivity|]. split.
  - pose proof (run_or_die_spawned h [str script] s) as Hsp.
    destruct (_run_or_die h [str script] s) as [[out|e] s']; cbn [snd] in Hsp.
    + cbn [catch snd st_log]. rewrite spawned_app, Hsp. cbn. apply app_nil_r.
    + rewrite catch_spawned_raise. exact Hsp.
  - intros res fs1 Hs H0. rewrite (run_or_die_ok h _ s res fs1 Hs H0).
    cbn [catch st_fs st_log]. rewrite <- app_assoc. reflexivity.
Qed.

Lemma explicit_mode_runs_its_script_alone_witness :
  main host_all_quiet Sunproject (Background_change "night") (fresh fs_all_scripts)
  = (0, {| st_fs := fs_all_scripts;
           st_log := [] ++ [EvSpawn ["/Users/dev/repo/scripts/wallpaper_evening.sh"] None
                              (Ok (answer 0 "" ""));
                            EvStdout ("🖼️  Wallpaper set: " +:+ "night")] |})
  /\ exists_ fs_all_scripts (Path_of "/Users/dev/repo/scripts/wallpaper_times.sh") = true.
Proof.
  destruct (explicit_mode_runs_its_script_alone host_all_quiet Sunproject (fresh fs_all_scripts)
              (Path_of "/Users/dev/repo/scripts")
              (Path_of "/Users/dev/repo/scripts" // "wallpaper_evening.sh") "night")
    as [_ Hrun]; [vm_compute; reflexivity | right; split; reflexivity |].
  destruct Hrun as [_ Hok]; [vm_compute; reflexivity|].
  split; [|vm_compute; reflexivity].
  apply (Hok (answer 0 "" "") fs_all_scripts); reflexivity.
Defined.

(** X6.  A per-mode script that fails ends the command with the
    script's own exit code, after one diagnostic: the script's stderr if
    it is not blank, else its stdout if that is not blank, else a generic
    line naming the script; no confirmation is printed.  A script that
    cannot be started at all ends the command with exit code 1. *)
Theorem failing_script_exit_code_propagates
    (h : host) (a : program) (s : state) (sdir script : Path) (mode : string) (fs1 : fsmap) :
  _find_dir h a (st_fs s) "scripts" = Ok (Some sdir) ->
  (mode = "day" /\ script = sdir // "wallpaper_morning.sh")
  \/ (mode = "night" /\ script = sdir // "wallpaper_evening.sh") ->
  exists_ (st_fs s) script = true ->
  (forall res,
     spawn h [str script] None (st_fs s) = (Ok res, fs1) -> returncode res <> 0 ->
     let msg := if Str.truthy (Str.strip (stderr res)) then Str.strip (stderr res)
                else if Str.truthy (Str.strip (stdout res)) then Str.strip (stdout res)
                else "Command failed: " +:+ str script in
     main h a (Background_change mode) s
     = (returncode res,
        {| st_fs := fs1;
           st_log := st_log s ++ [EvSpawn [str script] None (Ok res); EvStderr msg] |}))
  /\ (forall e,
        spawn h [str script] None (st_fs s) = (Raise (Exception e), fs1) ->
        main h a (Background_change mode) s
        = (1, {| st_fs := fs1;
                 st_log := (st_log s ++ [EvSpawn [str script] None (Raise (Exception e))])
                           ++ [EvStderr ("Error: " +:+ e)] |})).
Proof.
  intros Hd Hsel Hex. unfold main.
  rewrite (background_explicit_run h a s sdir mode script Hd Hsel). unfold run_script.
  rewrite Hex. split.
  - intros res Hs Hne. cbv zeta. rewrite (run_or_die_fail h _ s res fs1 Hs Hne). reflexivity.
  - intros e Hs. rewrite (run_or_die_cannot_start h _ s _ fs1 Hs). reflexivity.
Qed.

Lemma failing_script_exit_code_propagates_witness :
  main host_morning_fails Riset (Background_change "day") (fresh fs_per_mode_only)
  = (7, {| st_fs := fs_per_mode_only;
           st_log := [] ++ [EvSpawn ["/Users/dev/repo/scripts/wallpaper_morning.sh"] None
                              (Ok (answer 7 ("osascript: no display" +:+ LF) ""));
                            EvStderr "osascript: no display"] |}).
Proof.
  destruct (failing_script_exit_code_propagates host_morning_fails Riset (fresh fs_per_mode_only)
              (Path_of "/Users/dev/repo/scripts")
              (Path_of "/Users/dev/repo/scripts" // "wallpaper_morning.sh") "day"
              fs_per_mode_only) as [Hfail _];
    [vm_compute; reflexivity | left; split; reflexivity | vm_compute; reflexivity |].
  apply (Hfail (answer 7 ("osascript: no display" +:+ LF) "")); [reflexivity|discriminate].
Defined.

(* ================================================================== *)
(** * Auto mode and post-install, when things go wrong *)

(** X7.  background_change --mode auto with neither wallpaper_times.sh
    nor compute_mode.sh in the scripts directory prints one diagnostic
    and returns 2; nothing is started and nothing is changed, even when
    both per-mode scripts are installed. *)
Theorem auto_without_delegate_exits_2 (h : host) (a : program) (s : state) (sdir : Path) :
  _find_dir h a (st_fs s) "scripts" = Ok (Some sdir) ->
  exists_ (st_fs s) (sdir // "wallpaper_times.sh") = false ->
  exists_ (st_fs s) (sdir // "compute_mode.sh") = false ->
  main h a (Background_change "auto") s
  = (2, {| st_fs := st_fs s;
           st_log := st_log s
             ++ [EvStderr "For --mode auto, expected 'wallpaper_times.sh' or 'compute_mode.sh' not found."] |}).
Proof.
  intros Hd Ht Hc. unfold main.
  destruct a; cbn [func]; unfold cmd_background_change;
    rewrite (bind_ok _ _ _ _ _ (scripts_dir_some _ _ _ _ Hd));
    change (String.eqb "auto" "auto") with true; cbv iota;
    rewrite bind_with_fs, Ht; cbv iota; rewrite bind_with_fs, Hc; reflexivity.
Qed.

Lemma auto_without_delegate_exits_2_witness :
  main host_all_quiet Riset (Background_change "auto") (fresh fs_per_mode_only)
  = (2, {| st_fs := fs_per_mode_only;
           st_log := []
             ++ [EvStderr "For --mode auto, expected 'wallpaper_times.sh' or 'compute_mode.sh' not found."] |}).
Proof.
  apply (auto_without_delegate_exits_2 host_all_quiet Riset (fresh fs_per_mode_only)
           (Path_of "/Users/dev/repo/scripts")); vm_compute; reflexivity.
Defined.

(** X8.  In auto mode a failing delegate ends the command with the
    delegate's exit code and diagnostic: the unified delegate when it
    exists, else the decision delegate.  Nothing is run after it, so a
    failing decision delegate never leads to a per-mode script. *)
Theorem auto_delegate_failure_propagates
    (h : host) (a : program) (s : state) (sdir : Path) (res : CompletedProcess) (fs1 : fsmap) :
  _find_dir h a (st_fs s) "scripts" = Ok (Some sdir) ->
  returncode res <> 0 ->
  let after (script : Path) :=
    (returncode res,
     {| st_fs := fs1;
        st_log := st_log s
                  ++ [EvSpawn [str script] None (Ok res);
                      EvStderr (Str.or_else (Str.strip (stderr res))
                                  (Str.or_else (Str.strip (stdout res))
                                     ("Command failed: " +:+ str script)))] |}) in
  (exists_ (st_fs s) (sdir // "wallpaper_times.sh") = true ->
   spawn h [str (sdir // "wallpaper_times.sh")] None (st_fs s) = (Ok res, fs1) ->
   main h a (Background_change "auto") s = after (sdir // "wallpaper_times.sh"))
  /\ (exists_ (st_fs s) (sdir // "wallpaper_times.sh") = false ->
      exists_ (st_fs s) (sdir // "compute_mode.sh") = true ->
      spawn h [str (sdir // "compute_mode.sh")] None (st_fs s) = (Ok res, fs1) ->
      main h a (Background_change "auto") s = after (sdir // "compute_mode.sh")).
Proof.
  intros Hd Hne after. subst after. cbv beta. unfold main. split.
  - intros Hex Hs. rewrite (background_auto_unified _ _ _ _ Hd Hex).
    rewrite (run_or_die_fail h _ s res fs1 Hs Hne). reflexivity.
  - intros Ht Hc Hs.
    destruct a; cbn [func]; unfold cmd_background_change;
      rewrite (bind_ok _ _ _ _ _ (scripts_dir_some _ _ _ _ Hd));
      change (String.eqb "auto" "auto") with true; cbv iota;
      rewrite bind_with_fs, Ht; cbv iota; rewrite bind_with_fs, Hc; cbv iota;
      rewrite (bind_raise _ _ _ _ _ (run_or_die_fail h _ s res fs1 Hs Hne)); reflexivity.
Qed.

Lemma auto_delegate_failure_propagates_witness :
  main host_times_fails Riset (Background_change "auto") (fresh fs_all_scripts)
  = (3, {| st_fs := fs_all_scripts;
           st_log := [] ++ [EvSpawn ["/Users/dev/repo/scripts/wallpaper_times.sh"] None
                              (Ok (answer 3 "" ("no location configured" +:+ LF)));
                            EvStderr "no location configured"] |}).
Proof.
  destruct (auto_delegate_failure_propagates host_times_fails Riset (fresh fs_all_scripts)
              (Path_of "/Users/dev/repo/scripts")
              (answer 3 "" ("no location configured" +:+ LF)) fs_all_scripts)
    as [Hu _]; [vm_compute; reflexivity | discriminate |].
  apply Hu; vm_compute; reflexivity.
Defined.

Lemma post_install_started h a s sdir cfg :
  _find_dir h a (st_fs s) "scripts" = Ok (Some sdir) ->
  exists_ (st_fs s) (sdir // "wallpaper_times.sh") = true ->
  fst (_read_config h a s) = Ok cfg ->
  cmd_post_install h a s
  = let cmd := ["bash"; str (sdir // "wallpaper_times.sh")] in
    let child := post_install_env h a cfg in
    let r := spawn h cmd (Some child) (st_fs s) in
    let s1 := {| st_fs := snd r; st_log := st_log s ++ [EvSpawn cmd (Some child) (fst r)] |} in
    match fst r with
    | Raise e => (Raise e, s1)
    | Ok res =>
        if returncode res =? 0 then
          (Ok 0,
           {| st_fs := snd r;
              st_log := st_log s1
                ++ (if Str.truthy (Str.strip (stdout res))
                    then [EvStdout (Str.strip (stdout res))] else [])
                ++ (if Str.truthy (Str.strip (stderr res))
                    then [EvStderr (Str.strip (stderr res))] else [])
                ++ [EvStdout "✅ wallpaper_times.sh executed (launch agents updated)."] |})
        else
          (Ok (returncode res),
           {| st_fs := snd r;
              st_log := st_log s1
                ++ [EvStderr (Str.or_else (Str.strip (stderr res))
                                (Str.or_else (Str.strip (stdout res))
                                   "wallpaper_times.sh failed"))] |})
    end.
Proof.
  intros Hd Hex Hcfg. cbv zeta. unfold cmd_post_install.
  rewrite (bind_ok _ _ _ _ _ (scripts_dir_some _ _ _ _ Hd)).
  rewrite bind_with_fs, Hex. cbn [negb].
  rewrite (bind_ok _ _ s cfg s)
    by (rewrite (surjective_pairing (_read_config h a s)), Hcfg, read_config_state; reflexivity).
  unfold bind at 1, subprocess_run.
  destruct (spawn h _ _ (st_fs s)) as [[res|e] fs']; cbn [fst snd st_log]; [|reflexivity].
  unfold bind, print, eprint, log, ret.
  destruct (returncode res =? 0); cbn [negb fst snd st_log st_fs]; [|reflexivity].
  destruct (Str.truthy (Str.strip (stdout res))), (Str.truthy (Str.strip (stderr res)));
    cbn [fst snd st_log st_fs List.app]; rewrite <- ?app_assoc; reflexivity.
Qed.

(** X9.  post_install returns 2 without starting anything when
    wallpaper_times.sh is missing.  Once the delegate runs, the exit code
    of post_install is the delegate's return code: 0 with a confirmation
    as the last line, or the failure code after one diagnostic (stderr,
    else stdout, else a fixed text); what the delegate left of the file
    system is not touched again. *)
Theorem post_install_returns_delegate_code
    (h : host) (a : program) (s : state) (sdir : Path) (cfg : Dict.t) :
  _find_dir h a (st_fs s) "scripts" = Ok (Some sdir) ->
  fst (_read_config h a s) = Ok cfg ->
  let times_script := sdir // "wallpaper_times.sh" in
  let run := main h a Post_install s in
  (exists_ (st_fs s) times_script = false ->
     run = (2, {| st_fs := st_fs s;
                  st_log := st_log s
                            ++ [EvStderr ("Expected script not found: " +:+ str times_script)] |}))
  /\ (exists_ (st_fs s) times_script = true ->
      forall res fs1,
        spawn h ["bash"; str times_script] (Some (post_install_env h a cfg)) (st_fs s)
          = (Ok res, fs1) ->
        fst run = returncode res
        /\ st_fs (snd run) = fs1
        /\ (returncode res = 0 ->
            List.last (st_log (snd run)) EvPrintHelp
            = EvStdout "✅ wallpaper_times.sh executed (launch agents updated).")
        /\ (returncode res <> 0 ->
            st_log (snd run)
            = st_log s
              ++ [EvSpawn ["bash"; str times_script] (Some (post_install_env h a cfg)) (Ok res);
                  EvStderr (Str.or_else (Str.strip (stderr res))
                              (Str.or_else (Str.strip (stdout res))
                                 "wallpaper_times.sh failed"))])).
Proof.
  intros Hd Hcfg times_script run. subst run. unfold main. cbn [func]. split.
  - intros Hex. replace (func h a Post_install s) with (cmd_post_install h a s)
      by (destruct a; reflexivity).
    unfold cmd_post_install.
    rewrite (bind_ok _ _ _ _ _ (scripts_dir_some _ _ _ _ Hd)).
    fold times_script. rewrite bind_with_fs, Hex. reflexivity.
  - intros Hex res fs1 Hs.
    replace (func h a Post_install s) with (cmd_post_install h a s)
      by (destruct a; reflexivity).
    rewrite (post_install_started h a s sdir cfg Hd Hex Hcfg). cbv zeta.
    fold times_script. rewrite Hs. cbn [fst snd].
    destruct (returncode res =? 0) eqn:E; cbn [catch fst snd st_fs st_log].
    + apply Z.eqb_eq in E. repeat split; [congruence| |congruence].
      intros _. rewrite !app_assoc. apply last_last.
    + apply Z.eqb_neq in E. repeat split; [congruence|].
      intros _. rewrite <- app_assoc. reflexivity.
Qed.

Lemma post_install_returns_delegate_code_witness :
  main host_times_fails Riset Post_install (fresh fs_all_scripts)
  = (3, {| st_fs := fs_all_scripts;
           st_log := [EvSpawn ["bash"; "/Users/dev/repo/scripts/wallpaper_times.sh"]
                        (Some (post_install_env host_times_fails Riset []))
                        (Ok (answer 3 "" ("no location configured" +:+ LF)));
                      EvStderr "no location configured"] |}).
Proof.
  destruct (post_install_returns_delegate_code host_times_fails Riset (fresh fs_all_scripts)
              (Path_of "/Users/dev/repo/scripts") []) as [_ Hrun];
    [vm_compute; reflexivity ..|].
  destruct (Hrun eq_refl (answer 3 "" ("no location configured" +:+ LF)) fs_all_scripts eq_refl)
    as (Hcode & Hfs & _ & Hlog).
  specialize (Hlog ltac:(discriminate)).
  destruct (main host_times_fails Riset Post_install (fresh fs_all_scripts)) as [c [fs l]].
  cbn [fst snd st_fs st_log] in *. subst. reflexivity.
Defined.

(* ================================================================== *)
(** * What cleanup removes *)

Lemma after_unlink_lookup fs p k :
  parts p <> [] ->
  after_unlink fs p !! k
  = if decide (k = str p)
    then match fs !! k with Some Dir => Some Dir | _ => None end
    else fs !! k.
Proof.
  intros Hp. unfold after_unlink, unlink. rewrite (stat_lookup _ _ Hp).
  destruct (decide (k = str p)) as [->|Hne].
  - destruct (fs !! str p) as [[t|]|] eqn:E; rewrite ?lookup_delete_eq, ?E; reflexivity.
  - destruct (fs !! str p) as [[t|]|] eqn:E; rewrite ?lookup_delete_ne by congruence; reflexivity.
Qed.

Lemma launch_agent_paths_parts h p :
  In p (_launch_agent_paths h) -> parts p <> [].
Proof.
  unfold _launch_agent_paths.
  rewrite (joinpath_relative (home h) "Library" ["Library"] eq_refl).
  rewrite (joinpath_relative _ "LaunchAgents" ["LaunchAgents"] eq_refl).
  rewrite (joinpath_relative _ "com.riset.sunrise.plist" ["com.riset.sunrise.plist"] eq_refl).
  rewrite (joinpath_relative _ "com.riset.sunset.plist" ["com.riset.sunset.plist"] eq_refl).
  cbn [is_absolute parts In]. intros [<-|[<-|[]]]; cbn [parts]; intros E;
    apply app_eq_nil in E as [_ E]; discriminate.
Qed.

Lemma unlink_errors_dir fs p :
  parts p <> [] -> fs !! str p = Some Dir -> unlink_errors fs p <> [].
Proof.
  intros Hp E. unfold unlink_errors, unlink. rewrite (stat_lookup _ _ Hp), E. discriminate.
Qed.

(** X10.  When launchctl leaves the file system alone, cleanup removes
    the two descriptor files and nothing else: every other path is as it
    was, a descriptor that was a file (or absent) does not exist
    afterwards, and a descriptor path that is a directory stays and makes
    cleanup return 1. *)
Theorem cleanup_removes_only_descriptors
    (h : host) (s : state) (p1 p2 : Path) (res1 res2 : CompletedProcess) :
  _launch_agent_paths h = [p1; p2] ->
  spawn h (bootout_cmd h p1) None (st_fs s) = (Ok res1, st_fs s) ->
  spawn h (bootout_cmd h p2) None (after_unlink (st_fs s) p1)
    = (Ok res2, after_unlink (st_fs s) p1) ->
  let run := main h Riset Cleanup s in
  (forall k, k <> str p1 -> k <> str p2 -> st_fs (snd run) !! k = st_fs s !! k)
  /\ (forall p, p = p1 \/ p = p2 ->
        is_dir (st_fs s) p = false -> exists_ (st_fs (snd run)) p = false)
  /\ (forall p, p = p1 \/ p = p2 ->
        is_dir (st_fs s) p = true -> is_dir (st_fs (snd run)) p = true /\ fst run = 1).
Proof.
  intros Hp H1 H2 run.
  assert (N1 : parts p1 <> []) by (apply (launch_agent_paths_parts h); rewrite Hp; cbn; auto).
  assert (N2 : parts p2 <> []) by (apply (launch_agent_paths_parts h); rewrite Hp; cbn; auto).
  pose proof (cmd_cleanup_eq h s p1 p2 res1 (st_fs s) res2 (after_unlink (st_fs s) p1) Hp H1 H2)
    as Hc. cbv zeta in Hc.
  set (fs := st_fs s) in *. set (fs1 := after_unlink fs p1) in *.
  set (errors := (bootout_errors p1 res1 ++ unlink_errors fs p1)
                 ++ bootout_errors p2 res2 ++ unlink_errors fs1 p2) in *.
  assert (Hfs : st_fs (snd run) = after_unlink fs1 p2).
  { subst run. unfold main. cbn [func]. rewrite Hc. destruct errors; reflexivity. }
  assert (Hcode : errors <> [] -> fst run = 1).
  { subst run. unfold main. cbn [func]. rewrite Hc. destruct errors; [congruence|reflexivity]. }
  assert (L : forall k, st_fs (snd run) !! k
              = if decide (k = str p2)
                then match fs1 !! k with Some Dir => Some Dir | _ => None end
                else fs1 !! k)
    by (intros k; rewrite Hfs; apply after_unlink_lookup, N2).
  assert (L1 : forall k, fs1 !! k
               = if decide (k = str p1)
                 then match fs !! k with Some Dir => Some Dir | _ => None end
                 else fs !! k)
    by (intros k; apply after_unlink_lookup, N1).
  split; [|split].
  - intros k K1 K2. rewrite L, L1. repeat case_decide; congruence.
  - intros p [-> | ->] Hd; unfold exists_, is_dir in *;
      rewrite stat_lookup in * by assumption; rewrite L, !L1;
      repeat case_decide; try congruence;
      destruct (fs !! str p1) as [[|]|] eqn:E1; try discriminate;
      destruct (fs !! str p2) as [[|]|] eqn:E2; try discriminate; congruence.
  - intros p [-> | ->] Hd; unfold is_dir in *; rewrite stat_lookup in * by assumption.
    + destruct (fs !! str p1) as [[|]|] eqn:E1; try discriminate. split.
      * rewrite L, !L1. repeat case_decide; rewrite ?E1; try congruence; reflexivity.
      * apply Hcode. subst errors. pose proof (unlink_errors_dir fs p1 N1 E1).
        destruct (bootout_errors p1 res1), (unlink_errors fs p1); cbn; congruence.
    + destruct (fs !! str p2) as [[|]|] eqn:E2; try discriminate.
      assert (E21 : fs1 !! str p2 = Some Dir).
      { rewrite L1. case_decide; rewrite E2; reflexivity. }
      split.
      * rewrite L. case_decide; [|congruence]. rewrite E21. reflexivity.
      * apply Hcode. subst errors. pose proof (unlink_errors_dir fs1 p2 N2 E21).
        destruct (bootout_errors p1 res1 ++ unlink_errors fs p1), (bootout_errors p2 res2),
          (unlink_errors fs1 p2); cbn; congruence.
Qed.

Lemma cleanup_removes_only_descriptors_witness :
  st_fs (snd (main host_all_quiet Riset Cleanup (fresh fs_agents)))
    !! "/Users/dev/Library/LaunchAgents/com.other.agent.plist" = Some (File "<plist/>")
  /\ exists_ (st_fs (snd (main host_all_quiet Riset Cleanup (fresh fs_agents))))
       (Path_of "/Users/dev/Library/LaunchAgents/com.riset.sunrise.plist") = false
  /\ exists_ (st_fs (snd (main host_all_quiet Riset Cleanup (fresh fs_agents))))
       (Path_of "/Users/dev/Library/LaunchAgents/com.riset.sunset.plist") = false.
Proof.
  destruct (cleanup_removes_only_descriptors host_all_quiet (fresh fs_agents)
              (Path_of "/Users/dev/Library/LaunchAgents/com.riset.sunrise.plist")
              (Path_of "/Users/dev/Library/LaunchAgents/com.riset.sunset.plist")
              (answer 0 "" "") (answer 0 "" "")) as (Hframe & Hgone & _);
    [vm_compute; reflexivity ..|].
  split; [rewrite Hframe; [vm_compute; reflexivity | discriminate ..]|].
  split; apply Hgone; first [left; reflexivity | right; reflexivity | vm_compute; reflexivity].
Defined.

(** X11.  When launchctl cannot be started, cleanup stops at the first
    descriptor: it returns 1 after an [Error:] line and deletes nothing. *)
Theorem cleanup_without_launchctl_deletes_nothing
    (h : host) (s : state) (p1 p2 : Path) (e : string) (fs1 : fsmap) :
  _launch_agent_paths h = [p1; p2] ->
  spawn h (bootout_cmd h p1) None (st_fs s) = (Raise (Exception e), fs1) ->
  main h Riset Cleanup s
  = (1, {| st_fs := fs1;
           st_log := (st_log s ++ [EvSpawn (bootout_cmd h p1) None (Raise (Exception e))])
                     ++ [EvStderr ("Error: " +:+ e)] |}).
Proof.
  intros Hp Hs. unfold main. cbn [func]. unfold cmd_cleanup. rewrite Hp. cbn [cleanup_loop].
  unfold bind at 1. unfold bind at 1. unfold cleanup_plist at 1. unfold bind at 1.
  unfold _run, subprocess_run. rewrite Hs. reflexivity.
Qed.

Lemma cleanup_without_launchctl_deletes_nothing_witness :
  main host_bare Riset Cleanup (fresh fs_agents)
  = (1, {| st_fs := fs_agents;
           st_log := ([] ++ [EvSpawn ["launchctl"; "bootout"; "gui/501";
                                      "/Users/dev/Library/LaunchAgents/com.riset.sunrise.plist"]
                               None (Raise (Exception "[Errno 2] No such file or directory"))])
                     ++ [EvStderr ("Error: " +:+ "[Errno 2] No such file or directory")] |}).
Proof.
  apply (cleanup_without_launchctl_deletes_nothing host_bare (fresh fs_agents)
           (Path_of "/Users/dev/Library/LaunchAgents/com.riset.sunrise.plist")
           (Path_of "/Users/dev/Library/LaunchAgents/com.riset.sunset.plist")
           "[Errno 2] No such file or directory" fs_agents); reflexivity.
Defined.

(* ================================================================== *)
(** * Replacing an image *)

Lemma parent_joinpath p name :
  Path_of name = {| is_absolute := false; parts := [name] |} ->
  parent (p // name) = p /\ parts (p // name) <> [].
Proof.
  intros E. rewrite (joinpath_relative p name [name] E). unfold parent.
  cbn [is_absolute parts]. rewrite removelast_last. destruct p as [b l].
  split; [reflexivity|]. cbn [parts]. intros H. apply app_eq_nil in H as [_ H]. discriminate.
Qed.

Lemma stat_file_lookup fs p t : stat fs p = Some (File t) -> fs !! str p = Some (File t).
Proof. unfold stat. destruct (parts p); [discriminate|auto]. Qed.

Lemma replace_image_copies h s src dest_filename label assets src_path t fs1 :
  Path_of dest_filename = {| is_absolute := false; parts := [dest_filename] |} ->
  _find_dir h Riset (st_fs s) "assets" = Ok (Some assets) ->
  expanduser h (Path_of src) = Ok src_path ->
  stat (st_fs s) src_path = Some (File t) ->
  mkdir_parents (st_fs s) assets = Ok fs1 ->
  is_dir fs1 (assets // dest_filename) = false ->
  str src_path <> str (assets // dest_filename) ->
  _replace_wallpaper_image h src dest_filename label s
  = (Ok 0,
     {| st_fs := <[str (assets // dest_filename) := File t]> fs1;
        st_log := st_log s
                  ++ [EvStdout ("✅ " +:+ label +:+ " wallpaper updated -> "
                                +:+ str (assets // dest_filename))] |}).
Proof.
  intros Hname Hd He Hsrc Hm Hnd Hne.
  destruct (parent_joinpath assets dest_filename Hname) as [Hpar _].
  destruct (mkdir_parents_spec _ _ _ Hm) as (Hdir & Hkeep & _).
  assert (Hsrc1 : stat fs1 src_path = Some (File t)).
  { unfold stat in *. destruct (parts src_path); [discriminate|]. apply Hkeep, Hsrc. }
  unfold _replace_wallpaper_image.
  rewrite (bind_ok _ _ s (Some assets) s) by (unfold _assets_dir, find_dir; rewrite Hd; reflexivity).
  rewrite (bind_ok _ _ s src_path s) by (unfold lift; rewrite He; reflexivity).
  rewrite bind_with_fs. unfold exists_ at 1. rewrite Hsrc. cbn [negb].
  rewrite bind_with_fs. unfold is_file at 1. rewrite Hsrc. cbn [negb].
  rewrite bind_with_fs. unfold id. rewrite Hpar.
  rewrite (bind_ok _ _ s fs1 s) by (unfold lift; rewrite Hm; reflexivity).
  unfold bind at 1, set_fs at 1.
  unfold copy2. rewrite Hnd, Hsrc1.
  apply String.eqb_neq in Hne. rewrite Hne.
  assert (W : forall (x y : fsmap + string),
             match stat fs1 (assets // dest_filename) with Some Dir => x | _ => y end = y).
  { intros x y. unfold is_dir in Hnd.
    destruct (stat fs1 (assets // dest_filename)) as [[|]|]; congruence. }
  rewrite W, Hpar, Hdir.
  unfold bind, set_fs, print, log, ret. reflexivity.
Qed.



(** X13.  day and night refuse, with exit code 2 and the file system
    untouched, when the assets directory cannot be found (the diagnostic
    names RISET_ASSETS_DIR) and when the source exists but is not a
    regular file. *)
Theorem replace_image_rejects_untouched
    (h : host) (s : state) (src target label : string) :
  (_find_dir h Riset (st_fs s) "assets" = Ok None ->
   _replace_wallpaper_image h src target label s
   = (Ok 2, {| st_fs := st_fs s; st_log := st_log s ++ [EvStderr assets_dir_missing] |})
   /\ Str.contains "RISET_ASSETS_DIR" assets_dir_missing = true)
  /\ (forall assets src_path,
        _find_dir h Riset (st_fs s) "assets" = Ok (Some assets) ->
        expanduser h (Path_of src) = Ok src_path ->
        is_dir (st_fs s) src_path = true ->
        _replace_wallpaper_image h src target label s
        = (Ok 2, {| st_fs := st_fs s;
                    st_log := st_log s
                              ++ [EvStderr ("Expected a file but got: " +:+ str src_path)] |})).
Proof.
  split.
  - intros Hd. split; [|vm_compute; reflexivity]. unfold _replace_wallpaper_image.
    rewrite (bind_ok _ _ s None s) by (unfold _assets_dir, find_dir; rewrite Hd; reflexivity).
    reflexivity.
  - intros assets src_path Hd He Hdir. unfold _replace_wallpaper_image.
    rewrite (bind_ok _ _ s (Some assets) s)
      by (unfold _assets_dir, find_dir; rewrite Hd; reflexivity).
    rewrite (bind_ok _ _ s src_path s) by (unfold lift; rewrite He; reflexivity).
    unfold is_dir in Hdir.
    destruct (stat (st_fs s) src_path) as [[|]|] eqn:E; try discriminate.
    rewrite bind_with_fs. unfold exists_ at 1. rewrite E. cbn [negb].
    rewrite bind_with_fs. unfold is_file at 1. rewrite E. reflexivity.
Qed.

Lemma replace_image_rejects_untouched_witness :
  _replace_wallpaper_image host_bare "~" NIGHT_ASSET "Night" (fresh fs_pictures)
  = (Ok 2, {| st_fs := fs_pictures;
              st_log := [] ++ [EvStderr ("Expected a file but got: "
                                         +:+ str (Path_of "/Users/dev"))] |}).
Proof.
  destruct (replace_image_rejects_untouched host_bare (fresh fs_pictures) "~" NIGHT_ASSET "Night")
    as [_ Hdir].
  apply (Hdir (Path_of "/Users/dev/repo/assets") (Path_of "/Users/dev")); vm_compute; reflexivity.
Defined.

(* ================================================================== *)
(** * White space and case *)

Lemma lstrip_space_append w s : all_space w = true -> Str.lstrip (w +:+ s) = Str.lstrip s.
Proof.
  unfold all_space. induction w as [|c w IH]; [reflexivity|]. cbn [all_chars]. intros H.
  apply andb_true_iff in H as [Hc Hw]. rewrite append_cons. cbn [Str.lstrip].
  rewrite Hc. apply IH, Hw.
Qed.

Lemma rstrip_space w : all_space w = true -> Str.rstrip w = EmptyString.
Proof.
  unfold all_space. induction w as [|c w IH]; [reflexivity|]. cbn [all_chars]. intros H.
  apply andb_true_iff in H as [Hc Hw]. cbn [Str.rstrip]. rewrite (IH Hw), Hc. reflexivity.
Qed.

Lemma rstrip_append_space s w : all_space w = true -> Str.rstrip (s +:+ w) = Str.rstrip s.
Proof.
  intros Hw. induction s as [|c s IH]; [apply rstrip_space, Hw|].
  rewrite append_cons. cbn [Str.rstrip]. rewrite IH. reflexivity.
Qed.

(** Text without white space at either end, wrapped in white space,
    strips back to itself. *)
Lemma strip_wrapped w1 s w2 :
  all_space w1 = true -> all_space w2 = true -> Str.strip s = s ->
  Str.strip (w1 +:+ s +:+ w2) = s.
Proof.
  intros H1 H2 Hs. destruct (strip_fixed s Hs) as [Hl Hr]. unfold Str.strip.
  rewrite <- append_assoc, (rstrip_append_space _ _ H2).
  destruct s as [|c s]; [rewrite append_nil_r, (rstrip_space _ H1); reflexivity|].
  rewrite rstrip_append by (rewrite Hr; reflexivity).
  rewrite Hr, (lstrip_space_append _ _ H1). exact Hl.
Qed.

Lemma all_space_no_eq w :
  all_space w = true -> all_chars (fun c => negb (Ascii.eqb c "=")) w = true.
Proof.
  unfold all_space. induction w as [|c w IH]; [reflexivity|]. cbn [all_chars]. intros H.
  apply andb_true_iff in H as [Hc Hw]. rewrite (IH Hw), andb_true_r.
  destruct (Ascii.eqb_spec c "=") as [->|]; [discriminate Hc|reflexivity].
Qed.

Lemma storable_parts k v :
  storable (k, v) = true ->
  Str.strip k = k /\ Str.strip v = v
  /\ all_chars (fun c => negb (Ascii.eqb c "=")) k = true
  /\ Str.startswith "#" k = false.
Proof.
  unfold storable. cbn [fst snd]. rewrite !andb_true_iff.
  intros [[[[[Hk Hv] _] _] Heq] Hhash].
  apply String.eqb_eq in Hk, Hv. apply negb_true_iff in Hhash. auto.
Qed.



(* ================================================================== *)
(** * An unreadable config, and the two programs' environments *)

Lemma read_config_dir h a s :
  stat (st_fs s) (CONFIG_PATH h a) = Some Dir ->
  _read_config h a s
  = (Raise (Exception (errno_msg "[Errno 21] Is a directory" (CONFIG_PATH h a))), s).
Proof.
  intros H. unfold _read_config. rewrite bind_with_fs. unfold exists_ at 1.
  rewrite H. cbn [negb]. rewrite bind_with_fs. unfold id.
  apply bind_raise. unfold lift, read_text. rewrite H. reflexivity.
Qed.



(** X16.  The two programs differ in one variable of the post-install
    environment: riset always hands RISET_PYTHON_BIN to the delegate (the
    parent's value if it has one, else the running interpreter), while
    sunproject adds nothing besides its LAT and LON. *)
Theorem post_install_interpreter_variable (h : host) (cfg : Dict.t) :
  post_install_env h Riset cfg !! "RISET_PYTHON_BIN"
    = Some (default (executable h) (environ h !! "RISET_PYTHON_BIN"))
  /\ (forall k, k <> "SUNPROJECT_LAT" -> k <> "SUNPROJECT_LON" ->
        post_install_env h Sunproject cfg !! k = environ h !! k).
Proof.
  split.
  - unfold post_install_env. cbn [ENV_PREFIX].
    assert (E : setdefault "RISET_PYTHON_BIN" (executable h) (environ h) !! "RISET_PYTHON_BIN"
                = Some (default (executable h) (environ h !! "RISET_PYTHON_BIN"))).
    { destruct (environ h !! "RISET_PYTHON_BIN") as [v|] eqn:Ev; cbn [default].
      - apply setdefault_keeps, Ev.
      - apply setdefault_absent, Ev. }
    destruct (Dict.get "lon" cfg), (Dict.get "lat" cfg);
      rewrite ?setdefault_other by discriminate; exact E.
  - intros k K1 K2. unfold post_install_env. cbn [ENV_PREFIX].
    destruct (Dict.get "lon" cfg), (Dict.get "lat" cfg);
      rewrite ?setdefault_other by (intros E; symmetry in E; first [exact (K1 E) | exact (K2 E)]);
      reflexivity.
Qed.

Lemma post_install_interpreter_variable_witness :
  post_install_env host_with_lat Riset istanbul !! "RISET_PYTHON_BIN" = Some "/usr/bin/python3"
  /\ post_install_env host_with_lat Sunproject istanbul !! "RISET_PYTHON_BIN" = None.
Proof.
  destruct (post_install_interpreter_variable host_with_lat istanbul) as [Hr Hs].
  split; [exact Hr|]. rewrite Hs by discriminate. vm_compute. reflexivity.
Defined.

Lemma is_space_lower_char c : Str.is_space (Str.lower_char c) = Str.is_space c.
Proof. destruct c as [[] [] [] [] [] [] [] []]; reflexivity. Qed.

Lemma no_space_lower s :
  all_chars (fun c => negb (Str.is_space c)) (Str.lower s) = true ->
  all_chars (fun c => negb (Str.is_space c)) s = true.
Proof.
  induction s as [|c s IH]; [auto|]. cbn [Str.lower Str.map_chars all_chars].
  rewrite is_space_lower_char. intros H. apply andb_true_iff in H as [-> H].
  apply IH, H.
Qed.

Lemma no_space_strip s :
  all_chars (fun c => negb (Str.is_space c)) s = true -> Str.strip s = s.
Proof.
  intros H. assert (R : Str.rstrip s = s).
  { induction s as [|c s IH]; [reflexivity|]. cbn [all_chars] in H.
    apply andb_true_iff in H as [Hc Hs]. apply negb_true_iff in Hc.
    cbn [Str.rstrip]. rewrite Hc, (IH Hs). reflexivity. }
  unfold Str.strip. rewrite R. destruct s as [|c s]; [reflexivity|].
  cbn [all_chars] in H. apply andb_true_iff in H as [Hc _]. apply negb_true_iff in Hc.
  cbn [Str.lstrip]. rewrite Hc. reflexivity.
Qed.

(** X17.  The answer of the decision delegate is read without regard to
    case and to surrounding white space: any spelling of day (night)
    wrapped in white space resolves to day (night), and the matching
    per-mode script, when installed, is the only process started after
    the delegate. *)
Theorem auto_decision_ignores_case_and_space
    (h : host) (a : program) (s : state) (sdir script : Path)
    (res : CompletedProcess) (fs1 : fsmap) (w1 word w2 : string) :
  _find_dir h a (st_fs s) "scripts" = Ok (Some sdir) ->
  exists_ (st_fs s) (sdir // "wallpaper_times.sh") = false ->
  exists_ (st_fs s) (sdir // "compute_mode.sh") = true ->
  spawn h [str (sdir // "compute_mode.sh")] None (st_fs s) = (Ok res, fs1) ->
  returncode res = 0 ->
  stdout res = w1 +:+ word +:+ w2 ->
  all_space w1 = true -> all_space w2 = true ->
  (Str.lower word = "day" /\ script = sdir // "wallpaper_morning.sh")
  \/ (Str.lower word = "night" /\ script = sdir // "wallpaper_evening.sh") ->
  exists_ fs1 script = true ->
  Str.lower (Str.strip (Str.strip (stdout res))) = Str.lower word
  /\ spawned (st_log (snd (main h a (Background_change "auto") s)))
     = spawned (st_log s) ++ [[str (sdir // "compute_mode.sh")]; [str script]]
  /\ forall res2 fs2,
       spawn h [str script] None fs1 = (Ok res2, fs2) -> returncode res2 = 0 ->
       fst (main h a (Background_change "auto") s) = 0.
Proof.
  intros Hd Ht Hc Hs H0 Hout H1 H2 Hsel Hex.
  assert (Hword : Str.strip word = word).
  { apply no_space_strip, no_space_lower. destruct Hsel as [[-> _]|[-> _]]; reflexivity. }
  assert (Hmode : Str.lower (Str.strip (Str.strip (stdout res))) = Str.lower word).
  { rewrite Hout, strip_idem, (strip_wrapped _ _ _ H1 H2 Hword). reflexivity. }
  split; [exact Hmode|].
  pose proof (background_auto_decision h a s sdir res fs1 Hd Ht Hc Hs H0) as Hf.
  cbv zeta in Hf. rewrite Hmode in Hf.
  destruct (mode_script_cases sdir (Str.lower word) script Hsel) as [Hm Hneg].
  rewrite Hneg, (apply_mode_script _ _ _ _ _ Hm) in Hf. cbn [st_fs st_log] in Hf.
  rewrite Hex in Hf. unfold main. rewrite Hf.
  set (s1 := {| st_fs := fs1;
                st_log := st_log s ++ [EvSpawn [str (sdir // "compute_mode.sh")] None (Ok res)] |}).
  split.
  - pose proof (run_or_die_spawned h [str script] s1) as Hsp.
    assert (Hl1 : spawned (st_log s1)
                  = spawned (st_log s) ++ [[str (sdir // "compute_mode.sh")]]).
    { subst s1. cbn [st_log]. rewrite spawned_app. reflexivity. }
    rewrite Hl1, <- app_assoc in Hsp. cbn [List.app] in Hsp.
    destruct (_run_or_die h [str script] s1) as [[out|e] s']; cbn [snd] in Hsp.
    + cbn [catch snd st_log]. rewrite spawned_app, Hsp. cbn. apply app_nil_r.
    + rewrite catch_spawned_raise. exact Hsp.
  - intros res2 fs2 Hs2 H02. rewrite (run_or_die_ok h _ s1 res2 fs2 Hs2 H02). reflexivity.
Qed.

Lemma auto_decision_ignores_case_and_space_witness :
  Str.lower (Str.strip (Str.strip ((" " +:+ TAB) +:+ "Day" +:+ (" " +:+ LF)))) = "day"
  /\ spawned (st_log (snd (main host_says_Day Riset (Background_change "auto") (fresh fs_split))))
     = [["/Users/dev/repo/scripts/compute_mode.sh"];
        ["/Users/dev/repo/scripts/wallpaper_morning.sh"]]
  /\ fst (main host_says_Day Riset (Background_change "auto") (fresh fs_split)) = 0.
Proof.
  destruct (auto_decision_ignores_case_and_space host_says_Day Riset (fresh fs_split)
              (Path_of "/Users/dev/repo/scripts")
              (Path_of "/Users/dev/repo/scripts" // "wallpaper_morning.sh")
              (answer 0 ((" " +:+ TAB) +:+ "Day" +:+ (" " +:+ LF)) "") fs_split
              (" " +:+ TAB) "Day" (" " +:+ LF))
    as (Hmode & Hsp & Hok);
    [vm_compute; reflexivity .. | left; split; reflexivity | vm_compute; reflexivity |].
  split; [exact Hmode|]. split; [exact Hsp|].
  apply (Hok (answer 0 "" "") fs_split); reflexivity.
Defined.
